(** * AI Productivity Tracker: scoring engine, day-record aggregator and
      persistence facade

    A shallow embedding of [app.js] (scoring, colour mapping, the
    "generate" flow and the phase merge) and of [firebase-config.js] (the
    two-tier store), followed by the properties of the specification that
    were checked against it.

    Conventions of the embedding.
    - JavaScript numbers that occur here are sums of the small integer
      constants of the scoring tables, so they are modelled as [Z]; the two
      non-numeric outcomes a score can take ([NaN], and [null] after a JSON
      round trip) are explicit constructors.
    - A JavaScript object used as a map is an insertion-ordered association
      list ([Object.values] and the spread operator follow insertion order
      for the string keys used here).
    - Asynchronous functions are run to completion one after the other
      (the application awaits each call), as computations of a state and
      exception monad over the world: both stores, a counter of external
      interactions, the in-memory heat-map snapshot and the trace of facade
      invocations. Every call to Firestore, to [localStorage] and to the
      clock is taken to complete, with a value or with an exception; which
      of the two is decided by oracles of the environment, so that every
      pattern of failures is covered.
    - The page itself (controls, messages, heat-map cells) is not
      modelled: what [collectPhaseData] reads is a parameter, and the
      message shown last is the result of [handleGenerateClick]. *)

From Stdlib Require Import ZArith List String Ascii Bool Lia Permutation.
From Stdlib Require Import DecimalString.
From Stdlib Require DecimalNat DecimalFacts.
Import ListNotations.

#[local] Open Scope string_scope.
#[local] Open Scope Z_scope.

(* ===================================================================== *)
(** ** JavaScript values and coercions used by the scoring code *)
(* ===================================================================== *)

Module Js.

(** Truthiness of a string: every string but the empty one. *)
Definition truthy (s : string) : bool :=
  match s with
  | EmptyString => false
  | String _ _ => true
  end.

(** Lookup in an association list (first binding wins on read; writes
    below keep keys unique). *)
Fixpoint assoc {A : Type} (k : string) (o : list (string * A)) : option A :=
  match o with
  | [] => None
  | (k', v) :: rest => if String.eqb k k' then Some v else assoc k rest
  end.

(** [o[k] = v] on an object: overwrite in place, or append a new key. *)
Fixpoint set {A : Type} (k : string) (v : A) (o : list (string * A))
  : list (string * A) :=
  match o with
  | [] => [(k, v)]
  | (k', v') :: rest =>
      if String.eqb k k' then (k, v) :: rest else (k', v') :: set k v rest
  end.

(** [Object.values(o)]. *)
Definition values {A : Type} (o : list (string * A)) : list A := map snd o.

(** The property names every object literal inherits from
    [Object.prototype]; a bracket lookup [table[key]] with one of these
    keys does not give [undefined] but the inherited function (or, for
    [__proto__], the prototype object itself). *)
Definition object_prototype_keys : list string :=
  [ "constructor"; "hasOwnProperty"; "isPrototypeOf";
    "propertyIsEnumerable"; "toLocaleString"; "toString"; "valueOf";
    "__proto__"; "__defineGetter__"; "__defineSetter__";
    "__lookupGetter__"; "__lookupSetter__" ].

Definition inherited (k : string) : bool :=
  existsb (String.eqb k) object_prototype_keys.

(** Result of [table[key]] on an object literal whose own properties are
    numbers. *)
Inductive property : Type :=
| Own (z : Z)
| Inherited
| Undefined.

Definition get (table : list (string * Z)) (k : string) : property :=
  match assoc k table with
  | Some z => Own z
  | None => if inherited k then Inherited else Undefined
  end.

(** Value of [table[key] || 0]: an own number (0 stays 0), 0 for
    [undefined], and the inherited object itself, which is truthy. *)
Inductive operand : Type :=
| ONum (z : Z)
| OObj.

Definition or_zero (p : property) : operand :=
  match p with
  | Own z => ONum z
  | Inherited => OObj
  | Undefined => ONum 0
  end.

(** The running total. [+] on two numbers adds; as soon as one side is
    an object (or already a string) [+] concatenates strings. Such a
    string contains the source text of the object (["function ..."] or
    ["[object Object]"]), so it never reads back as a number; its exact
    characters are not tracked. *)
Inductive total : Type :=
| TNum (z : Z)
| TStr.

Definition plus (a b : operand) : total :=
  match a, b with
  | ONum x, ONum y => TNum (x + y)
  | _, _ => TStr
  end.

Definition add (t d : total) : total :=
  match t, d with
  | TNum x, TNum y => TNum (x + y)
  | _, _ => TStr
  end.

(** A score as the application computes, passes around and stores it. *)
Inductive num : Type :=
| Num (z : Z)
| NaN
| Null.

(** [Math.min(100, Math.max(0, t))]: a string operand is converted with
    ToNumber, which gives [NaN] here, and [NaN] propagates. *)
Definition clamp (t : total) : num :=
  match t with
  | TNum z => Num (Z.min 100 (Z.max 0 z))
  | TStr => NaN
  end.

(** [JSON.parse(JSON.stringify(n))]: [NaN] is serialised as [null]. *)
Definition json (n : num) : num :=
  match n with
  | Num z => Num z
  | NaN => Null
  | Null => Null
  end.

End Js.

Import Js.

(* ===================================================================== *)
(** ** Data model *)
(* ===================================================================== *)

(** One entry of [collectPhaseData]: [{ phase, status, productivity }]. *)
Record PhaseSelection : Type := mkSelection {
  phase : nat;
  status : string;
  productivity : string
}.

(** A stored phase: [{ status, productivity, timestamp, locked }]. *)
Record PhaseRecord : Type := mkPhase {
  rec_status : string;
  rec_productivity : string;
  rec_timestamp : string;
  locked : bool
}.

Definition PhasesObj : Type := list (string * PhaseRecord).

(** A stored day. [phases] is [None] when the field is absent from the
    document; [id] is only present on records read from the remote
    store. *)
Record DayRecord : Type := mkDay {
  id : option string;
  date : string;
  weekday : string;
  score : num;
  color : string;
  timestamp : string;
  phases : option PhasesObj
}.

(* ===================================================================== *)
(** ** Scoring engine ([app.js]) *)
(* ===================================================================== *)

Definition SCORING_status : list (string * Z) :=
  [ ("passed", 10); ("failed", 0); ("other-important-work", 10);
    ("intentionally-declined", 10) ].

Definition SCORING_productivity : list (string * Z) :=
  [ ("highly-productive", 10); ("productive", 8); ("average", 6);
    ("below-average", 4); ("least-productive", 2) ].

(** [COLOR_MAPPING[k]] for the five keys of the table. *)
Definition COLOR_MAPPING (k : Z) : string :=
  if k =? 80 then "#0c6111ff"
  else if k =? 60 then "#349e39ff"
  else if k =? 40 then "#3cd841ff"
  else if k =? 20 then "#65cd68ff"
  else if k =? 0 then "#E8F5E8"
  else "undefined".

(** Body of the [forEach] callback of [calculateProductivityScore]. *)
Definition scoreSelection (totalScore : total) (p : PhaseSelection) : total :=
  if truthy (status p) then
    let statusScore := or_zero (get SCORING_status (status p)) in
    if String.eqb (status p) "failed" then
      add totalScore (TNum 0)
    else
      let productivityScore :=
        if truthy (productivity p)
        then or_zero (get SCORING_productivity (productivity p))
        else ONum 0 in
      add totalScore (plus statusScore productivityScore)
  else totalScore.

Definition calculateProductivityScore (phaseData : list PhaseSelection) : num :=
  clamp (fold_left scoreSelection phaseData (TNum 0)).

(** Body of the [forEach] callback of [calculateScoreFromPhaseObjects]:
    the productivity table is consulted without the truthiness test. *)
Definition scorePhaseObject (totalScore : total) (p : PhaseRecord) : total :=
  if truthy (rec_status p) then
    let statusScore := or_zero (get SCORING_status (rec_status p)) in
    if String.eqb (rec_status p) "failed" then
      add totalScore (TNum 0)
    else
      let productivityScore :=
        or_zero (get SCORING_productivity (rec_productivity p)) in
      add totalScore (plus statusScore productivityScore)
  else totalScore.

Definition calculateScoreFromPhaseObjects (phases : list PhaseRecord) : num :=
  clamp (fold_left scorePhaseObject phases (TNum 0)).

(** [getColorForScore]. On [NaN] and [null] the strict equality and all
    four [>=] tests are false, so the last [return] is reached. *)
Definition getColorForScore (s : num) : string :=
  match s with
  | Num z =>
      if z =? 0 then "#f0f0f0"
      else if z >=? 81 then COLOR_MAPPING 80
      else if z >=? 61 then COLOR_MAPPING 60
      else if z >=? 41 then COLOR_MAPPING 40
      else if z >=? 21 then COLOR_MAPPING 20
      else COLOR_MAPPING 0
  | NaN | Null => COLOR_MAPPING 0
  end.

(** [validateAllPhases]: [phaseData.some(phase => phase.status)]. *)
Definition validateAllPhases (phaseData : list PhaseSelection) : bool :=
  existsb (fun p => truthy (status p)) phaseData.

(* ===================================================================== *)
(** ** The world and its monad *)
(* ===================================================================== *)

(** A date-keyed store: the documents of the remote collection
    [users/defaultUser/consistency], or the parsed content of the
    [productivityData] entry of [localStorage]. *)
Definition Store : Type := list (string * DayRecord).

(** Invocations of the two exported facade operations. *)
Inductive FacadeCall : Type :=
| CallSave (d : string)
| CallFetchAll.

Record World : Type := mkWorld {
  remote : Store;
  local : Store;
  tick : nat;                     (* external interactions so far *)
  heatmapData : list DayRecord;   (* module variable of [app.js] *)
  calls : list FacadeCall         (* most recent first *)
}.

(** What [new Date()] gives: [toISOString()] and the long weekday name of
    [toLocaleDateString]. *)
Record Instant : Type := mkInstant {
  iso : string;
  weekdayLong : string
}.

(** Everything the code does not decide itself. External interactions
    are numbered by [tick]; the oracles say what the n-th one does. *)
Record Env : Type := mkEnv {
  db : bool;                       (* did [getFirestore] succeed at load *)
  remote_throws : nat -> bool;     (* [doc]/[setDoc]/[getDocs] raises *)
  local_throws : nat -> bool;      (* [localStorage]/[JSON] raises *)
  clock : nat -> Instant;
  array_sort : list DayRecord -> list DayRecord;
                                   (* [sort] with the [Date] comparator *)
  query_order : list DayRecord -> list DayRecord
                                   (* [orderBy('date', 'desc')] *)
}.

(** Completion of a call: a value, or an exception. The state reached
    before an exception is kept. *)
Inductive Completion (A : Type) : Type :=
| Returned (a : A)
| Thrown.

Arguments Returned {A} a.
Arguments Thrown {A}.

Definition M (A : Type) : Type := World -> Completion A * World.

Definition ret {A : Type} (a : A) : M A := fun w => (Returned a, w).

Definition throw {A : Type} : M A := fun w => (Thrown, w).

Definition bind {A B : Type} (m : M A) (k : A -> M B) : M B :=
  fun w =>
    match m w with
    | (Returned a, w') => k a w'
    | (Thrown, w') => (Thrown, w')
    end.

(** [try { body } catch (error) { handler }]. *)
Definition try_catch {A : Type} (body handler : M A) : M A :=
  fun w =>
    match body w with
    | (Returned a, w') => (Returned a, w')
    | (Thrown, w') => handler w'
    end.

Declare Scope js_scope.
Delimit Scope js_scope with js.

Notation "x <- m ;; k" := (bind m (fun x => k))
  (at level 100, m at next level, right associativity) : js_scope.
Notation "m ;; k" := (bind m (fun _ => k))
  (at level 100, right associativity) : js_scope.

#[local] Open Scope js_scope.

(** Monadic [forEach] with an accumulator. *)
Fixpoint forEach {A B : Type} (f : B -> A -> M B) (l : list A) (acc : B)
  : M B :=
  match l with
  | [] => ret acc
  | x :: rest => acc' <- f acc x ;; forEach f rest acc'
  end.

(** One external interaction: returns its number. *)
Definition interact : M nat :=
  fun w =>
    (Returned (tick w),
     mkWorld (remote w) (local w) (S (tick w)) (heatmapData w) (calls w)).

Definition record_call (c : FacadeCall) : M unit :=
  fun w =>
    (Returned tt,
     mkWorld (remote w) (local w) (tick w) (heatmapData w) (c :: calls w)).

Definition set_heatmapData (d : list DayRecord) : M unit :=
  fun w =>
    (Returned tt, mkWorld (remote w) (local w) (tick w) d (calls w)).

(** A stored record after [JSON.stringify] and [JSON.parse]: strings,
    booleans and integers are unchanged, a [NaN] score becomes [null]. *)
Definition json_record (r : DayRecord) : DayRecord :=
  mkDay (id r) (date r) (weekday r) (json (score r)) (color r)
        (timestamp r) (phases r).

Definition json_store (s : Store) : Store :=
  map (fun kv => (fst kv, json_record (snd kv))) s.

(** [{ id: doc.id, ...doc.data() }]. *)
Definition with_id (kv : string * DayRecord) : DayRecord :=
  let r := snd kv in
  mkDay (Some (fst kv)) (date r) (weekday r) (score r) (color r)
        (timestamp r) (phases r).

Section Facade.

Variable env : Env.

Definition now : M Instant :=
  n <- interact ;; ret (clock env n).

(** [setDoc(docRef, data)] without merge option: the document is
    replaced as a whole. *)
Definition setDoc (key : string) (data : DayRecord) : M unit :=
  n <- interact ;;
  if remote_throws env n then throw
  else fun w =>
    (Returned tt,
     mkWorld (set key data (remote w)) (local w) (tick w) (heatmapData w)
             (calls w)).

(** [getDocs(query(consistencyRef, orderBy('date', 'desc')))] followed by
    the [forEach] that builds the result array. *)
Definition getDocs : M (list DayRecord) :=
  n <- interact ;;
  if remote_throws env n then throw
  else fun w => (Returned (query_order env (map with_id (remote w))), w).

(** [JSON.parse(localStorage.getItem('productivityData') || '{}')]. *)
Definition localStorage_parse : M Store :=
  n <- interact ;;
  if local_throws env n then throw
  else fun w => (Returned (local w), w).

(** [localStorage.setItem('productivityData', JSON.stringify(data))]. *)
Definition localStorage_setItem (data : Store) : M unit :=
  n <- interact ;;
  if local_throws env n then throw
  else fun w =>
    (Returned tt,
     mkWorld (remote w) (json_store data) (tick w) (heatmapData w)
             (calls w)).

(** *** [firebase-config.js] *)

Definition saveToLocalStorage (date weekday : string) (score : num)
  (color : string) (phases : option PhasesObj) : M bool :=
  try_catch
    (existingData <- localStorage_parse ;;
     t <- now ;;
     let dataEntry := mkDay None date weekday score color (iso t) phases in
     localStorage_setItem (set date dataEntry existingData) ;;
     ret true)
    (ret false).

Definition saveDailyData (date weekday : string) (score : num)
  (color : string) (phases : option PhasesObj) : M bool :=
  record_call (CallSave date) ;;
  try_catch
    (if negb (db env) then
       saveToLocalStorage date weekday score color phases
     else
       t <- now ;;
       let data := mkDay None date weekday score color (iso t) phases in
       setDoc date data ;;
       ret true)
    (saveToLocalStorage date weekday score color None).

Definition fetchFromLocalStorage : M (list DayRecord) :=
  try_catch
    (data <- localStorage_parse ;;
     ret (array_sort env (values data)))
    (ret []).

Definition fetchAllData : M (list DayRecord) :=
  record_call CallFetchAll ;;
  try_catch
    (if negb (db env) then fetchFromLocalStorage else getDocs)
    fetchFromLocalStorage.

(** *** [app.js]: aggregator *)

(** The part of a day record that [getTodayData] guarantees to return. *)
Record TodayData : Type := mkToday {
  today_phases : option PhasesObj;
  today_score : num;
  today_color : string
}.

Definition emptyToday : TodayData := mkToday (Some []) (Num 0) "#f0f0f0".

Definition getTodayData (d : string) : M TodayData :=
  try_catch
    (allData <- fetchAllData ;;
     ret match find (fun item => String.eqb (date item) d) allData with
         | Some todayData =>
             mkToday (phases todayData) (score todayData) (color todayData)
         | None => emptyToday
         end)
    (ret emptyToday).

(** [{ ...existingData.phases }]: spreading [undefined] gives [{}]. *)
Definition spread (o : option PhasesObj) : PhasesObj :=
  match o with
  | Some p => p
  | None => []
  end.

(** The template literal [`phase${phase.phase}`]. *)
Definition phaseKey (n : nat) : string :=
  "phase" ++ NilZero.string_of_uint (Nat.to_uint n).

Definition mergePhase (updatedPhases : PhasesObj) (p : PhaseSelection)
  : M PhasesObj :=
  if truthy (status p) then
    t <- now ;;
    ret (set (phaseKey (phase p))
             (mkPhase (status p) (productivity p) (iso t) true)
             updatedPhases)
  else ret updatedPhases.

Definition savePhaseData (date weekday : string)
  (phaseData : list PhaseSelection) : M bool :=
  try_catch
    (existingData <- getTodayData date ;;
     updatedPhases <-
       forEach mergePhase phaseData (spread (today_phases existingData)) ;;
     let allPhases := values updatedPhases in
     let totalScore := calculateScoreFromPhaseObjects allPhases in
     let color := getColorForScore totalScore in
     now ;;  (* [dataToSave.timestamp]; [dataToSave] itself is unused *)
     saveDailyData date weekday totalScore color (Some updatedPhases))
    (ret false).

(** [lockSavedPhases] reads today's record and only touches the page. It
    is started without [await]; it is run here at the point of call. *)
Definition lockSavedPhases (date : string) : M unit :=
  try_catch (getTodayData date ;; ret tt) (ret tt).

Definition updateHeatmapColor (date weekday : string) (score : num)
  (color : string) : M unit :=
  try_catch
    (saveDailyData date weekday score color None ;; ret tt)
    (ret tt).

Definition loadHeatmapData : M unit :=
  try_catch
    (d <- fetchAllData ;; set_heatmapData d)
    (ret tt).

(** [date.toISOString().split('T')[0]]. *)
Fixpoint before_T (s : string) : string :=
  match s with
  | EmptyString => EmptyString
  | String c rest =>
      if Ascii.eqb c "T"%char then EmptyString else String c (before_T rest)
  end.

Definition formatDate (t : Instant) : string := before_T (iso t).

Definition getWeekday (t : Instant) : string := weekdayLong t.

(** What the user is told at the end of [handleGenerateClick]. *)
Inductive ClickResult : Type :=
| PleaseSelectStatus             (* validation message, early [return] *)
| PhaseSaved (shown : num)       (* "Phase saved! Current Score: ..." *)
| ErrorGenerating.               (* message of the [catch] block *)

(** [handleGenerateClick]; [phaseData] is what [collectPhaseData] read
    from the five pairs of controls. *)
Definition handleGenerateClick (phaseData : list PhaseSelection)
  : M ClickResult :=
  try_catch
    (if negb (validateAllPhases phaseData) then ret PleaseSelectStatus
     else
       t <- now ;;
       let date := formatDate t in
       let weekday := getWeekday t in
       success <- savePhaseData date weekday phaseData ;;
       let score := calculateProductivityScore phaseData in
       let color := getColorForScore score in
       if (success : bool) then
         lockSavedPhases date ;;
         updateHeatmapColor date weekday score color ;;
         loadHeatmapData ;;
         ret (PhaseSaved score)
       else throw)
    (ret ErrorGenerating).

End Facade.

(* ===================================================================== *)
(** ** Notions of the specification *)
(* ===================================================================== *)

(** The four statuses of the scoring table. *)
Definition known_statuses : list string := map fst SCORING_status.

(** Points of a productivity value read off the table, 0 when absent. *)
Definition productivityPoints (s : string) : Z :=
  match assoc s SCORING_productivity with
  | Some v => v
  | None => 0
  end.

(** A phase is excluded from scoring when adding it anywhere in a
    collection leaves the score unchanged. *)
Definition excluded_from_scoring (p : PhaseSelection) : Prop :=
  forall before after,
    calculateProductivityScore (before ++ p :: after)
    = calculateProductivityScore (before ++ after).

Definition object_excluded_from_scoring (p : PhaseRecord) : Prop :=
  forall before after,
    calculateScoreFromPhaseObjects (before ++ p :: after)
    = calculateScoreFromPhaseObjects (before ++ after).

(** Neither string of the selection names an inherited property. *)
Definition plain_selection (p : PhaseSelection) : Prop :=
  inherited (status p) = false /\ inherited (productivity p) = false.

Definition plain_object (p : PhaseRecord) : Prop :=
  inherited (rec_status p) = false /\ inherited (rec_productivity p) = false.

(** The six buckets of the heat-map palette and the score ranges the
    specification gives them. *)
Inductive Bucket : Type :=
| NoData | Lightest | Light | Medium | Darker | Darkest.

Definition bucket_of (s : Z) : Bucket :=
  if s =? 0 then NoData
  else if (1 <=? s) && (s <=? 20) then Lightest
  else if (21 <=? s) && (s <=? 40) then Light
  else if (41 <=? s) && (s <=? 60) then Medium
  else if (61 <=? s) && (s <=? 80) then Darker
  else Darkest.

(** The colour the code shows for each bucket. *)
Definition palette (b : Bucket) : string :=
  match b with
  | NoData => "#f0f0f0"
  | Lightest => COLOR_MAPPING 0
  | Light => COLOR_MAPPING 20
  | Medium => COLOR_MAPPING 40
  | Darker => COLOR_MAPPING 60
  | Darkest => COLOR_MAPPING 80
  end.

(** The invariant of a stored day: the score is the score of the stored
    phases (read the way the aggregator reads them) and the colour is the
    colour of the score. *)
Definition consistent (r : DayRecord) : Prop :=
  score r = calculateScoreFromPhaseObjects (values (spread (phases r)))
  /\ color r = getColorForScore (score r).

(** The world after [k] further interactions. *)
Definition later (k : nat) (w : World) : World :=
  mkWorld (remote w) (local w) (k + tick w) (heatmapData w) (calls w).

(** The world once a facade invocation is on the trace. *)
Definition called (c : FacadeCall) (w : World) : World :=
  mkWorld (remote w) (local w) (tick w) (heatmapData w) (c :: calls w).

(** True when the local write of [saveToLocalStorage] started at
    interaction [n] goes through: neither the parse (interaction [n]) nor
    the [setItem] (interaction [n + 2], after the clock) raises. *)
Definition local_write_ok (env : Env) (n : nat) : bool :=
  negb (local_throws env n) && negb (local_throws env (S (S n))).

(** True when the remote write of [saveDailyData] started at interaction
    [n] goes through: the handle exists and [setDoc] (interaction [n + 1],
    after the clock) does not raise. *)
Definition remote_write_ok (env : Env) (n : nat) : bool :=
  db env && negb (remote_throws env (S n)).

(* ===================================================================== *)
(** ** Concrete environments for running the model *)
(* ===================================================================== *)

(** Insertion sort, latest date first. On [YYYY-MM-DD] strings the
    lexicographic order is the chronological one. *)
Fixpoint insert_desc (r : DayRecord) (l : list DayRecord) : list DayRecord :=
  match l with
  | [] => [r]
  | x :: rest =>
      if String.leb (date x) (date r) then r :: l
      else x :: insert_desc r rest
  end.

Definition sort_desc (l : list DayRecord) : list DayRecord :=
  fold_right insert_desc [] l.

Definition tuesday_morning : Instant :=
  mkInstant "2024-03-05T09:30:00.000Z" "Tuesday".

(** No remote handle; the local store works. *)
Definition offline : Env :=
  mkEnv false (fun _ => false) (fun _ => false) (fun _ => tuesday_morning)
        sort_desc sort_desc.

(** The remote store works. *)
Definition online : Env :=
  mkEnv true (fun _ => false) (fun _ => false) (fun _ => tuesday_morning)
        sort_desc sort_desc.

(** The handle exists but every remote call raises; the local store
    works. *)
Definition remote_down : Env :=
  mkEnv true (fun _ => true) (fun _ => false) (fun _ => tuesday_morning)
        sort_desc sort_desc.

Definition emptyWorld : World := mkWorld [] [] 0 [] [].

Definition unset (n : nat) : PhaseSelection := mkSelection n "" "".

(** First submission: phase 1 passed, highly productive. *)
Definition first_submission : list PhaseSelection :=
  [ mkSelection 1 "passed" "highly-productive"; unset 2; unset 3; unset 4;
    unset 5 ].

(** Second submission, controls of phase 1 blank (as after a reload):
    phase 2 passed, average. *)
Definition second_submission : list PhaseSelection :=
  [ unset 1; mkSelection 2 "passed" "average"; unset 3; unset 4; unset 5 ].

(** Second submission, controls of phase 1 still holding their values. *)
Definition second_submission_same_page : list PhaseSelection :=
  [ mkSelection 1 "passed" "highly-productive";
    mkSelection 2 "passed" "average"; unset 3; unset 4; unset 5 ].

Definition phase1_record : PhaseRecord :=
  mkPhase "passed" "highly-productive" "2024-03-05T09:30:00.000Z" true.

Definition phase2_record : PhaseRecord :=
  mkPhase "passed" "average" "2024-03-05T09:30:00.000Z" true.

(** A record of that Tuesday as the local store holds it. *)
Definition day (s : num) (c : string) (p : option PhasesObj) : DayRecord :=
  mkDay None "2024-03-05" "Tuesday" s c "2024-03-05T09:30:00.000Z" p.

(** Run [m] and keep the world. *)
Definition exec {A : Type} (m : M A) (w : World) : World := snd (m w).

(** Run [m] and keep the completion. *)
Definition eval {A : Type} (m : M A) (w : World) : Completion A := fst (m w).

(* ===================================================================== *)
(** ** Notions used to describe the facade and the aggregator *)
(* ===================================================================== *)

(** A store written by the facade only: every record sits under its own
    date and no date occurs twice. *)
Definition well_keyed (s : Store) : Prop :=
  NoDup (map fst s) /\ Forall (fun kv => date (snd kv) = fst kv) s.

(** Both stores are the same in [w'] as in [w]. *)
Definition same_stores (w w' : World) : Prop :=
  remote w' = remote w /\ local w' = local w.

(** The records of all dates but [d] are the same in [w'] as in [w]; the
    local ones are compared as they read back after serialisation. *)
Definition same_elsewhere (d : string) (w w' : World) : Prop :=
  forall d', d' <> d ->
    assoc d' (remote w') = assoc d' (remote w)
    /\ option_map json_record (assoc d' (local w'))
       = option_map json_record (assoc d' (local w)).

(** [well_keyed] carried from [w] to [w']. *)
Definition keys_kept (w w' : World) : Prop :=
  (well_keyed (remote w) -> well_keyed (remote w'))
  /\ (well_keyed (local w) -> well_keyed (local w')).

(** What [getTodayData] makes of the fetched array. *)
Definition todayIn (d : string) (allData : list DayRecord) : TodayData :=
  match find (fun item => String.eqb (date item) d) allData with
  | Some todayData =>
      mkToday (phases todayData) (score todayData) (color todayData)
  | None => emptyToday
  end.

(** The array [fetchAllData] resolves to in world [w]: the remote
    documents when the handle exists and [getDocs] goes through, else the
    local records, else nothing. *)
Definition fetched (env : Env) (w : World) : list DayRecord :=
  if db env && negb (remote_throws env (tick w)) then
    query_order env (map with_id (remote w))
  else if local_throws env (if db env then S (tick w) else tick w) then []
  else array_sort env (values (local w)).

(** The world [fetchAllData] leaves. *)
Definition after_fetch (env : Env) (w : World) : World :=
  later (if db env && remote_throws env (tick w) then 2 else 1)
        (called CallFetchAll w).

(** Number of phases of a submission that carry a status. *)
Definition stamps (phaseData : list PhaseSelection) : nat :=
  List.length (filter (fun p => truthy (status p)) phaseData).

(** The phases object the [forEach] of [savePhaseData] builds when it
    starts at interaction [n]. *)
Fixpoint mergedPhases (env : Env) (n : nat) (phaseData : list PhaseSelection)
  (acc : PhasesObj) : PhasesObj :=
  match phaseData with
  | [] => acc
  | p :: rest =>
      if truthy (status p) then
        mergedPhases env (S n) rest
          (set (phaseKey (phase p))
               (mkPhase (status p) (productivity p) (iso (clock env n)) true)
               acc)
      else mergedPhases env n rest acc
  end.

(** The phase object a selection is stored as. *)
Definition asPhaseObject (ts : string) (p : PhaseSelection) : PhaseRecord :=
  mkPhase (status p) (productivity p) ts true.

(** [m] relates every world to the world it leaves. *)
Definition keeps (R : World -> World -> Prop) {A : Type} (m : M A) : Prop :=
  forall w, R w (exec m w).

(** [handleGenerateClick] after the validation and the reading of the
    clock, which gave [t]. *)
Definition generateAt (env : Env) (phaseData : list PhaseSelection)
  (t : Instant) : M ClickResult :=
  (success <- savePhaseData env (formatDate t) (getWeekday t) phaseData ;;
   let score := calculateProductivityScore phaseData in
   let color := getColorForScore score in
   if (success : bool) then
     lockSavedPhases env (formatDate t) ;;
     updateHeatmapColor env (formatDate t) (getWeekday t) score color ;;
     loadHeatmapData env ;;
     ret (PhaseSaved score)
   else throw)%js.

(** The local backend never raises and there is no remote handle. *)
Definition local_only (env : Env) : Prop :=
  db env = false /\ forall n, local_throws env n = false.

(* ===================================================================== *)
(** ** Connection status ([firebase-config.js]) *)
(* ===================================================================== *)

(** [db !== null]. The module variable [db] is either [undefined] (the
    initialisation raised) or the Firestore handle; it is never [null],
    so the strict inequality holds in both cases. *)
Definition db_not_null (env : Env) : bool :=
  if db env then true else true.

(** [isFirebaseConfigured]; [apiKey] is [firebaseConfig.apiKey], the value
    every deployment fills in. *)
Definition isFirebaseConfigured (env : Env) (apiKey : string) : bool :=
  db_not_null env && negb (String.eqb apiKey "demo-api-key").

Definition getConnectionStatus (env : Env) (apiKey : string) : string :=
  if negb (db env) then "Using localStorage (Firebase not available)"
  else if negb (isFirebaseConfigured env apiKey)
       then "Using localStorage (Firebase not configured)"
       else "Connected to Firebase".

(* ===================================================================== *)
(** ** Heat-map display ([app.js]) *)
(* ===================================================================== *)

(** What [updateHeatmapDisplay] leaves on one [.heatmap-day] element:
    its background, the [has-data] class and the two data attributes. *)
Record Cell : Type := mkCell {
  cell_date : string;                (* [dataset.date] *)
  backgroundColor : string;
  has_data : bool;
  cell_score : option num;           (* [dataset.score] *)
  cell_weekday : option string       (* [dataset.weekday] *)
}.

(** Body of the [forEach] of [updateHeatmapDisplay]. *)
Definition updateCell (data : list DayRecord) (c : Cell) : Cell :=
  match find (fun item => String.eqb (date item) (cell_date c)) data with
  | Some item =>
      mkCell (cell_date c) (color item) true (Some (score item))
             (Some (weekday item))
  | None => mkCell (cell_date c) "#f0f0f0" false None None
  end.

Definition updateHeatmapDisplay (data : list DayRecord) (cells : list Cell)
  : list Cell :=
  map (updateCell data) cells.

(** A grid element for [d] as [generateHeatmapGrid] creates it. *)
Definition blankCell (d : string) : Cell := mkCell d "" false None None.

(* ===================================================================== *)
(** ** Service worker ([sw.js]): routing and cache trimming *)
(* ===================================================================== *)

Module ServiceWorker.

Definition STATIC_FILES : list string :=
  [ "/"; "/index.html"; "/style.css"; "/app.js"; "/firebase-config.js";
    "/manifest.json"; "/icons/icon-192.png"; "/icons/icon-512.png";
    "https://www.gstatic.com/firebasejs/10.7.1/firebase-app.js";
    "https://www.gstatic.com/firebasejs/10.7.1/firebase-firestore.js" ].

Definition DYNAMIC_CACHE_LIMIT : nat := 50.

(** [s.includes(sub)]. *)
Fixpoint includes (s sub : string) : bool :=
  String.prefix sub s
  || match s with
     | EmptyString => false
     | String _ rest => includes rest sub
     end.

(** [s.startsWith(p)]. *)
Definition startsWith (s p : string) : bool := String.prefix p s.

Definition isStaticFile (url : string) : bool :=
  existsb (fun file => includes url file) STATIC_FILES
  || includes url ".css"
  || includes url ".js"
  || includes url ".png"
  || includes url ".jpg"
  || includes url ".ico"
  || includes url ".svg".

Definition isFirebaseRequest (url : string) : bool :=
  includes url "firestore.googleapis.com"
  || includes url "firebase"
  || includes url "gstatic.com/firebasejs".

Definition isAPIRequest (url : string) : bool :=
  includes url "/api/"
  || includes url "firestore.googleapis.com".

Inductive Strategy : Type :=
| CacheFirst
| NetworkFirst.

(** The [fetch] listener: which strategy answers the request, [None]
    when the listener returns without [respondWith]. *)
Definition onFetch (url : string) : option Strategy :=
  if negb (startsWith url "http") then None
  else if isStaticFile url then Some CacheFirst
  else if isFirebaseRequest url then Some NetworkFirst
  else if isAPIRequest url then Some NetworkFirst
  else Some CacheFirst.

(** A cache: its entries in insertion order, keyed by request URL. *)
Definition Cache (R : Type) : Type := list (string * R).

(** [cache.delete(key)]. *)
Definition cache_delete {R : Type} (key : string) (c : Cache R) : Cache R :=
  filter (fun e => negb (String.eqb (fst e) key)) c.

(** [limitCacheSize] on the content of the cache: the keys beyond
    [maxSize], oldest first, are deleted one by one. *)
Definition limitCacheSize {R : Type} (c : Cache R) (maxSize : nat) : Cache R :=
  let keys := map fst c in
  if Nat.ltb maxSize (List.length keys) then
    let entriesToRemove := firstn (List.length keys - maxSize) keys in
    fold_left (fun c' key => cache_delete key c') entriesToRemove c
  else c.

End ServiceWorker.

(* ===================================================================== *)
(** ** Properties of the scoring engine *)
(* ===================================================================== *)

Section Folding.

Context {A B : Type} (f : B -> A -> B).

(** A step that leaves every accumulator alone can be dropped from the
    fold. *)
Lemma fold_left_skip (x : A) (l1 l2 : list A) (b : B) :
  (forall t, f t x = t) ->
  fold_left f (l1 ++ x :: l2) b = fold_left f (l1 ++ l2) b.
Proof.
  intros Hx. rewrite !fold_left_app. simpl. now rewrite Hx.
Qed.

(** A fold whose steps commute does not depend on the order. *)
Lemma fold_left_commutes (l l' : list A) :
  (forall t x y, f (f t x) y = f (f t y) x) ->
  Permutation l l' ->
  forall b, fold_left f l b = fold_left f l' b.
Proof.
  intros Hc Hp. induction Hp as [| x l l' _ IH | x y l | l l' l'' _ IH1 _ IH2];
    intros b; simpl.
  - reflexivity.
  - apply IH.
  - now rewrite Hc.
  - now rewrite IH1, IH2.
Qed.

End Folding.

Lemma add_zero (t : total) : add t (TNum 0) = t.
Proof. destruct t as [z |]; simpl; [now rewrite Z.add_0_r | reflexivity]. Qed.

Lemma add_swap (t a b : total) : add (add t a) b = add (add t b) a.
Proof.
  destruct t, a, b; simpl; try reflexivity. f_equal. lia.
Qed.

(** Each callback either leaves the total alone or adds a fixed amount
    that depends on the phase only. *)
Lemma scoreSelection_shape (p : PhaseSelection) :
  (forall t, scoreSelection t p = t)
  \/ exists d, forall t, scoreSelection t p = add t d.
Proof.
  unfold scoreSelection. destruct (truthy (status p)).
  - right. destruct (String.eqb (status p) "failed"); eexists; reflexivity.
  - now left.
Qed.

Lemma scorePhaseObject_shape (p : PhaseRecord) :
  (forall t, scorePhaseObject t p = t)
  \/ exists d, forall t, scorePhaseObject t p = add t d.
Proof.
  unfold scorePhaseObject. destruct (truthy (rec_status p)).
  - right. destruct (String.eqb (rec_status p) "failed"); eexists; reflexivity.
  - now left.
Qed.

Lemma scoreSelection_swap (t : total) (p q : PhaseSelection) :
  scoreSelection (scoreSelection t p) q = scoreSelection (scoreSelection t q) p.
Proof.
  destruct (scoreSelection_shape p) as [Hp | [dp Hp]],
           (scoreSelection_shape q) as [Hq | [dq Hq]];
    rewrite ?Hp, ?Hq, ?Hp; try reflexivity.
  apply add_swap.
Qed.

Lemma scorePhaseObject_swap (t : total) (p q : PhaseRecord) :
  scorePhaseObject (scorePhaseObject t p) q
  = scorePhaseObject (scorePhaseObject t q) p.
Proof.
  destruct (scorePhaseObject_shape p) as [Hp | [dp Hp]],
           (scorePhaseObject_shape q) as [Hq | [dq Hq]];
    rewrite ?Hp, ?Hq, ?Hp; try reflexivity.
  apply add_swap.
Qed.

(** A phase without status is skipped by both callbacks. *)
Lemma scoreSelection_empty_status (t : total) (p : PhaseSelection) :
  status p = "" -> scoreSelection t p = t.
Proof. intros H. unfold scoreSelection. now rewrite H. Qed.

Lemma scorePhaseObject_empty_status (t : total) (p : PhaseRecord) :
  rec_status p = "" -> scorePhaseObject t p = t.
Proof. intros H. unfold scorePhaseObject. now rewrite H. Qed.

Lemma scoreSelection_failed (t : total) (n : nat) (prod : string) :
  scoreSelection t (mkSelection n "failed" prod) = t.
Proof. unfold scoreSelection. simpl. apply add_zero. Qed.

Lemma scorePhaseObject_failed (t : total) (prod ts : string) (l : bool) :
  scorePhaseObject t (mkPhase "failed" prod ts l) = t.
Proof. unfold scorePhaseObject. simpl. apply add_zero. Qed.

(** *** Table lookups *)

(** A status that names no inherited property scores one of the table
    values, or 0. *)
Lemma status_lookup_plain (s : string) :
  inherited s = false ->
  exists z, or_zero (get SCORING_status s) = ONum z /\ 0 <= z <= 10.
Proof.
  intros H. unfold get, SCORING_status. simpl. rewrite H.
  repeat match goal with
         | |- context [String.eqb s ?k] => destruct (String.eqb s k)
         end; simpl; eexists; (split; [reflexivity | lia]).
Qed.

Lemma productivity_lookup_plain (s : string) :
  inherited s = false ->
  or_zero (get SCORING_productivity s) = ONum (productivityPoints s)
  /\ 0 <= productivityPoints s <= 10.
Proof.
  intros H. unfold get, productivityPoints, SCORING_productivity. simpl.
  rewrite H.
  repeat match goal with
         | |- context [String.eqb s ?k] => destruct (String.eqb s k)
         end; simpl; (split; [reflexivity | lia]).
Qed.

(** A status outside the table gets no status points. *)
Lemma status_lookup_unknown (s : string) :
  ~ In s known_statuses -> inherited s = false ->
  or_zero (get SCORING_status s) = ONum 0.
Proof.
  intros Hk Hi. unfold get.
  assert (assoc s SCORING_status = None) as ->.
  { unfold SCORING_status. simpl.
    repeat match goal with
           | |- context [String.eqb s ?k] =>
               destruct (String.eqb_spec s k) as [-> | _];
               [exfalso; apply Hk; unfold known_statuses; simpl; tauto |]
           end.
    reflexivity. }
  now rewrite Hi.
Qed.

Lemma productivityPoints_empty : productivityPoints "" = 0.
Proof. reflexivity. Qed.

(** On plain strings one callback adds between 0 and 20 points. *)
Lemma scoreSelection_plain (z : Z) (p : PhaseSelection) :
  plain_selection p ->
  exists c, scoreSelection (TNum z) p = TNum (z + c) /\ 0 <= c <= 20.
Proof.
  intros [Hs Hp]. unfold scoreSelection.
  destruct (truthy (status p)).
  - destruct (String.eqb (status p) "failed").
    + exists 0. simpl. split; [reflexivity | lia].
    + destruct (status_lookup_plain _ Hs) as (a & -> & Ha).
      destruct (productivity_lookup_plain _ Hp) as (-> & Hb).
      destruct (truthy (productivity p)); simpl.
      * exists (a + productivityPoints (productivity p)).
        split; [reflexivity | lia].
      * exists (a + 0). split; [reflexivity | lia].
  - exists 0. split; [now rewrite Z.add_0_r | lia].
Qed.

Lemma scorePhaseObject_plain (z : Z) (p : PhaseRecord) :
  plain_object p ->
  exists c, scorePhaseObject (TNum z) p = TNum (z + c) /\ 0 <= c <= 20.
Proof.
  intros [Hs Hp]. unfold scorePhaseObject.
  destruct (truthy (rec_status p)).
  - destruct (String.eqb (rec_status p) "failed").
    + exists 0. simpl. split; [reflexivity | lia].
    + destruct (status_lookup_plain _ Hs) as (a & -> & Ha).
      destruct (productivity_lookup_plain _ Hp) as (-> & Hb).
      simpl. exists (a + productivityPoints (rec_productivity p)).
      split; [reflexivity | lia].
  - exists 0. split; [now rewrite Z.add_0_r | lia].
Qed.

(** The unclamped sum over plain phases grows by at most 20 per phase. *)
Lemma sum_selections_bounded (l : list PhaseSelection) :
  Forall plain_selection l ->
  forall z, exists s,
    fold_left scoreSelection l (TNum z) = TNum s
    /\ z <= s <= z + 20 * Z.of_nat (List.length l).
Proof.
  induction 1 as [| p l Hp _ IH]; intros z.
  - exists z. simpl. split; [reflexivity | lia].
  - destruct (scoreSelection_plain z p Hp) as (c & Hc & Hb).
    destruct (IH (z + c)) as (s & Hs & Hb').
    exists s. cbn [fold_left]. rewrite Hc, Hs. split; [reflexivity |].
    cbn [List.length]. rewrite Nat2Z.inj_succ. lia.
Qed.

Lemma sum_objects_bounded (l : list PhaseRecord) :
  Forall plain_object l ->
  forall z, exists s,
    fold_left scorePhaseObject l (TNum z) = TNum s
    /\ z <= s <= z + 20 * Z.of_nat (List.length l).
Proof.
  induction 1 as [| p l Hp _ IH]; intros z.
  - exists z. simpl. split; [reflexivity | lia].
  - destruct (scorePhaseObject_plain z p Hp) as (c & Hc & Hb).
    destruct (IH (z + c)) as (s & Hs & Hb').
    exists s. cbn [fold_left]. rewrite Hc, Hs. split; [reflexivity |].
    cbn [List.length]. rewrite Nat2Z.inj_succ. lia.
Qed.

(** *** Claims on scoring *)

(** C4, as stated, fails: a phase whose status is none of the four known
    values is not excluded from scoring. With the status ["skipped"] and
    the productivity ["highly-productive"] the status lookup gives 0, the
    productivity lookup still runs, and the phase adds 10 points, in both
    scoring functions. *)
Lemma unknown_status_still_scores_productivity :
  ~ In "skipped" known_statuses
  /\ calculateProductivityScore
       [mkSelection 1 "skipped" "highly-productive"] = Num 10
  /\ ~ excluded_from_scoring (mkSelection 1 "skipped" "highly-productive")
  /\ ~ object_excluded_from_scoring
         (mkPhase "skipped" "highly-productive" "" true).
Proof.
  split; [| split; [reflexivity | split]].
  - unfold known_statuses. simpl. intros H.
    repeat (destruct H as [H | H]; [discriminate H |]). exact H.
  - intros H. specialize (H [] []). discriminate H.
  - intros H. specialize (H [] []). discriminate H.
Qed.

(** C4, amended: a phase with an empty status is excluded from scoring
    entirely, whatever its productivity. A phase whose status is not
    empty and not one of the four known values (and, like its
    productivity, not the name of an inherited property) gets 0 status
    points, and its productivity points are still added: it contributes
    the table value of its productivity, 0 when that is empty or
    unknown. *)
Theorem unknown_status_contribution (p : PhaseSelection) :
  ~ In (status p) known_statuses ->
  (status p = "" -> excluded_from_scoring p)
  /\ (status p <> "" -> plain_selection p ->
      (forall z, scoreSelection (TNum z) p
                 = TNum (z + productivityPoints (productivity p)))
      /\ calculateProductivityScore [p]
         = Num (productivityPoints (productivity p))).
Proof.
  intros Hk. split.
  - intros He before after. unfold calculateProductivityScore.
    f_equal. apply fold_left_skip.
    intros t. now apply scoreSelection_empty_status.
  - intros Hne [Hs Hp].
    assert (forall z, scoreSelection (TNum z) p
                      = TNum (z + productivityPoints (productivity p))) as Hz.
    { intros z. unfold scoreSelection.
      destruct (status p) as [| c s] eqn:E; [congruence |].
      cbn [truthy]. rewrite <- E in *.
      destruct (String.eqb_spec (status p) "failed") as [Hf | _].
      { exfalso. apply Hk. rewrite Hf. unfold known_statuses. simpl. tauto. }
      rewrite (status_lookup_unknown _ Hk Hs).
      destruct (productivity_lookup_plain _ Hp) as (-> & _).
      destruct (productivity p) eqn:Ep; simpl; reflexivity. }
    split; [exact Hz |].
    unfold calculateProductivityScore. cbn [fold_left]. rewrite Hz.
    destruct (productivity_lookup_plain _ Hp) as (_ & Hb).
    simpl. f_equal. lia.
Qed.

Lemma unknown_status_contribution_witness :
  ~ In "skipped" known_statuses
  /\ excluded_from_scoring (mkSelection 3 "" "productive")
  /\ calculateProductivityScore
       [mkSelection 1 "skipped" "highly-productive"] = Num 10.
Proof.
  assert (~ In "skipped" known_statuses) as Hs.
  { unfold known_statuses. simpl. intros H.
    repeat (destruct H as [H | H]; [discriminate H |]). exact H. }
  assert (~ In "" known_statuses) as He.
  { unfold known_statuses. simpl. intros H.
    repeat (destruct H as [H | H]; [discriminate H |]). exact H. }
  split; [exact Hs | split].
  - apply (proj1 (unknown_status_contribution
                    (mkSelection 3 "" "productive") He)).
    reflexivity.
  - apply (proj2 (unknown_status_contribution
                    (mkSelection 1 "skipped" "highly-productive") Hs)).
    + simpl. discriminate.
    + split; reflexivity.
Defined.

(** The stored-phase variant of the amended C4. *)
Lemma stored_phase_unknown_status (p : PhaseRecord) :
  ~ In (rec_status p) known_statuses ->
  (rec_status p = "" -> object_excluded_from_scoring p)
  /\ (rec_status p <> "" -> plain_object p ->
      forall z, scorePhaseObject (TNum z) p
                = TNum (z + productivityPoints (rec_productivity p))).
Proof.
  intros Hk. split.
  - intros He before after. unfold calculateScoreFromPhaseObjects.
    f_equal. apply fold_left_skip.
    intros t. now apply scorePhaseObject_empty_status.
  - intros Hne [Hs Hp] z. unfold scorePhaseObject.
    destruct (rec_status p) as [| c s] eqn:E; [congruence |].
    cbn [truthy]. rewrite <- E in *.
    destruct (String.eqb_spec (rec_status p) "failed") as [Hf | _].
    { exfalso. apply Hk. rewrite Hf. unfold known_statuses. simpl. tauto. }
    rewrite (status_lookup_unknown _ Hk Hs).
    destruct (productivity_lookup_plain _ Hp) as (-> & _).
    reflexivity.
Qed.

(** C7: a phase with status [failed] contributes 0 whatever its
    productivity: the callback leaves every running total unchanged, the
    phase can be removed from any collection without changing the score,
    and alone it scores 0. The same holds for stored phases. *)
Theorem failed_phase_contributes_zero (n : nat) (prod ts : string) (l : bool) :
  (forall t, scoreSelection t (mkSelection n "failed" prod) = t)
  /\ excluded_from_scoring (mkSelection n "failed" prod)
  /\ calculateProductivityScore [mkSelection n "failed" prod] = Num 0
  /\ (forall t, scorePhaseObject t (mkPhase "failed" prod ts l) = t)
  /\ object_excluded_from_scoring (mkPhase "failed" prod ts l)
  /\ calculateScoreFromPhaseObjects [mkPhase "failed" prod ts l] = Num 0.
Proof.
  repeat split.
  - intros t. apply scoreSelection_failed.
  - intros before after. unfold calculateProductivityScore. f_equal.
    apply fold_left_skip. intros t. apply scoreSelection_failed.
  - intros t. apply scorePhaseObject_failed.
  - intros before after. unfold calculateScoreFromPhaseObjects. f_equal.
    apply fold_left_skip. intros t. apply scorePhaseObject_failed.
Qed.

Example failed_highly_productive :
  calculateProductivityScore [mkSelection 1 "failed" "highly-productive"]
  = Num 0
  /\ calculateProductivityScore
       [mkSelection 1 "passed" "productive";
        mkSelection 2 "failed" "highly-productive"] = Num 18.
Proof. split; reflexivity. Qed.

(** C8 at a failing input: the score of a collection of at most 5 phase
    inputs, for any status and productivity strings, is to lie in
    [0, 100]. For the single phase with status ["constructor"] the code
    returns [NaN], which lies in no interval: the name is a property
    every object literal inherits, so [SCORING.status[phase.status] || 0]
    is the inherited function and not the default 0 the code intends for
    keys outside the table, the sum becomes a string, and the clamp
    [Math.min(100, Math.max(0, ...))] that is meant to bound the result
    lets [NaN] through. The scoring of stored phases fails the same way
    on the productivity ["toString"]. *)
Theorem inherited_status_scores_NaN :
  (List.length [mkSelection 1 "constructor" ""] <= 5)%nat
  /\ calculateProductivityScore [mkSelection 1 "constructor" ""] = NaN
  /\ ~ (exists s, calculateProductivityScore [mkSelection 1 "constructor" ""]
                  = Num s /\ 0 <= s <= 100)
  /\ calculateScoreFromPhaseObjects [mkPhase "passed" "toString" "" true]
     = NaN.
Proof.
  split; [simpl; lia | split; [reflexivity | split; [| reflexivity]]].
  intros (s & H & _). discriminate H.
Qed.

(** Where the defect does not show: on a collection of at most 5 phase
    inputs none of whose strings names an inherited property, the
    unclamped sum of contributions is a number in [0, 100] and the
    computed score is that same number, so the clamp changes nothing. *)
Lemma score_within_bounds (l : list PhaseSelection) :
  (List.length l <= 5)%nat ->
  Forall plain_selection l ->
  exists s,
    fold_left scoreSelection l (TNum 0) = TNum s
    /\ 0 <= s <= 100
    /\ calculateProductivityScore l = Num s.
Proof.
  intros Hlen Hplain.
  destruct (sum_selections_bounded l Hplain 0) as (s & Hs & Hb).
  exists s. unfold calculateProductivityScore. rewrite Hs.
  assert (0 <= s <= 100) as Hr by lia.
  repeat split; try lia. simpl. f_equal. lia.
Qed.

Lemma score_within_bounds_witness :
  exists s,
    fold_left scoreSelection
      [ mkSelection 1 "passed" "highly-productive";
        mkSelection 2 "other-important-work" "highly-productive";
        mkSelection 3 "intentionally-declined" "highly-productive";
        mkSelection 4 "passed" "highly-productive";
        mkSelection 5 "skipped" "unrated" ] (TNum 0) = TNum s
    /\ 0 <= s <= 100
    /\ calculateProductivityScore
         [ mkSelection 1 "passed" "highly-productive";
           mkSelection 2 "other-important-work" "highly-productive";
           mkSelection 3 "intentionally-declined" "highly-productive";
           mkSelection 4 "passed" "highly-productive";
           mkSelection 5 "skipped" "unrated" ] = Num s.
Proof.
  apply score_within_bounds.
  - simpl. lia.
  - repeat constructor.
Defined.

(** The same bound for the scoring of stored phases. *)
Lemma stored_phases_sum_in_range (l : list PhaseRecord) :
  (List.length l <= 5)%nat ->
  Forall plain_object l ->
  exists s,
    fold_left scorePhaseObject l (TNum 0) = TNum s
    /\ 0 <= s <= 100
    /\ calculateScoreFromPhaseObjects l = Num s.
Proof.
  intros Hlen Hplain.
  destruct (sum_objects_bounded l Hplain 0) as (s & Hs & Hb).
  exists s. unfold calculateScoreFromPhaseObjects. rewrite Hs.
  assert (0 <= s <= 100) as Hr by lia.
  repeat split; try lia. simpl. f_equal. lia.
Qed.

Example five_best_phases :
  calculateProductivityScore
    [ mkSelection 1 "passed" "highly-productive";
      mkSelection 2 "passed" "highly-productive";
      mkSelection 3 "passed" "highly-productive";
      mkSelection 4 "passed" "highly-productive";
      mkSelection 5 "passed" "highly-productive" ] = Num 100.
Proof. reflexivity. Qed.

(** C9: the score of a collection of phase inputs is the same for every
    permutation of the collection. *)
Theorem score_permutation_invariant (l l' : list PhaseSelection) :
  Permutation l l' ->
  calculateProductivityScore l = calculateProductivityScore l'.
Proof.
  intros Hp. unfold calculateProductivityScore. f_equal.
  apply fold_left_commutes; [| exact Hp].
  intros t x y. apply scoreSelection_swap.
Qed.

Lemma score_permutation_invariant_witness :
  calculateProductivityScore
    [ mkSelection 1 "passed" "average"; mkSelection 2 "failed" "";
      mkSelection 3 "toString" "productive" ]
  = calculateProductivityScore
      [ mkSelection 3 "toString" "productive"; mkSelection 1 "passed" "average";
        mkSelection 2 "failed" "" ].
Proof.
  apply score_permutation_invariant.
  apply Permutation_sym. apply (Permutation_cons_append [_; _]).
Defined.

(** The same for the scoring of stored phases. *)
Lemma stored_phases_order_irrelevant (l l' : list PhaseRecord) :
  Permutation l l' ->
  calculateScoreFromPhaseObjects l = calculateScoreFromPhaseObjects l'.
Proof.
  intros Hp. unfold calculateScoreFromPhaseObjects. f_equal.
  apply fold_left_commutes; [| exact Hp].
  intros t x y. apply scorePhaseObject_swap.
Qed.

(** *** Colour mapping *)

Lemma palette_injective (b1 b2 : Bucket) :
  palette b1 = palette b2 -> b1 = b2.
Proof.
  destruct b1, b2; simpl; intros H; try reflexivity; discriminate H.
Qed.

(** C10: on the integers of [0, 100] the colour of a score is the colour
    of its bucket, with the closed ranges 0, 1-20, 21-40, 41-60, 61-80 and
    81-100; the six colours are pairwise distinct, so 0 is told apart from
    1-20 and 20 from 21. *)
Theorem color_buckets (s : Z) :
  0 <= s <= 100 ->
  getColorForScore (Num s) = palette (bucket_of s)
  /\ (forall b1 b2, palette b1 = palette b2 -> b1 = b2)
  /\ getColorForScore (Num 0) <> getColorForScore (Num 1)
  /\ getColorForScore (Num 20) <> getColorForScore (Num 21).
Proof.
  intros Hs. split; [| split; [apply palette_injective | split; discriminate]].
  unfold getColorForScore, bucket_of.
  destruct (Z.eqb_spec s 0) as [-> | Hz]; [reflexivity |].
  destruct (Z.geb_spec s 81); destruct (Z.geb_spec s 61);
    destruct (Z.geb_spec s 41); destruct (Z.geb_spec s 21);
    destruct (Z.leb_spec 1 s); destruct (Z.leb_spec s 20);
    destruct (Z.leb_spec 21 s); destruct (Z.leb_spec s 40);
    destruct (Z.leb_spec 41 s); destruct (Z.leb_spec s 60);
    destruct (Z.leb_spec 61 s); destruct (Z.leb_spec s 80);
    simpl; try reflexivity; lia.
Qed.

Lemma color_buckets_witness :
  getColorForScore (Num 20) = palette (bucket_of 20)
  /\ (forall b1 b2, palette b1 = palette b2 -> b1 = b2)
  /\ getColorForScore (Num 0) <> getColorForScore (Num 1)
  /\ getColorForScore (Num 20) <> getColorForScore (Num 21).
Proof. apply (color_buckets 20). lia. Defined.

Example color_boundaries :
  map (fun s => getColorForScore (Num s)) [0; 1; 20; 21; 40; 41; 60; 61; 80; 81; 100]
  = [ "#f0f0f0"; "#E8F5E8"; "#E8F5E8"; "#65cd68ff"; "#65cd68ff"; "#3cd841ff";
      "#3cd841ff"; "#349e39ff"; "#349e39ff"; "#0c6111ff"; "#0c6111ff" ].
Proof. reflexivity. Qed.

(* ===================================================================== *)
(** ** Properties of the persistence facade *)
(* ===================================================================== *)

(** Unfolds the monad and the operations of [firebase-config.js]. *)
Ltac run_facade :=
  cbv [eval exec try_catch bind ret throw interact record_call now setDoc
       getDocs localStorage_parse localStorage_setItem saveToLocalStorage
       saveDailyData];
  cbn [fst snd tick remote local heatmapData calls].

(** [saveToLocalStorage] never raises; it answers [true] exactly when
    both accesses to [localStorage] go through. *)
Lemma saveToLocalStorage_resolves (env : Env) (d wd : string) (s : num)
  (c : string) (p : option PhasesObj) (w : World) :
  eval (saveToLocalStorage env d wd s c p) w
  = Returned (local_write_ok env (tick w)).
Proof.
  unfold local_write_ok. run_facade.
  destruct (local_throws env (tick w)); simpl; [reflexivity |].
  destruct (local_throws env (S (S (tick w)))); reflexivity.
Qed.

(** A successful local write stores the entry under its date, as it
    reads back after serialisation. *)
Lemma saveToLocalStorage_stores (env : Env) (d wd : string) (s : num)
  (c : string) (p : option PhasesObj) (w : World) :
  local_write_ok env (tick w) = true ->
  local (exec (saveToLocalStorage env d wd s c p) w)
  = json_store
      (set d (mkDay None d wd s c (iso (clock env (S (tick w)))) p) (local w)).
Proof.
  unfold local_write_ok. run_facade.
  destruct (local_throws env (tick w)); simpl; [discriminate |].
  destruct (local_throws env (S (S (tick w)))); simpl; [discriminate |].
  reflexivity.
Qed.

(** The answer of [saveDailyData], and the call as the code routes it:
    the remote write, or [saveToLocalStorage] run after the failed
    attempt (without the phases) or instead of it (with them). *)
Lemma saveDailyData_routing (env : Env) (d wd : string) (s : num)
  (c : string) (p : option PhasesObj) (w : World) :
  eval (saveDailyData env d wd s c p) w
  = Returned
      (if remote_write_ok env (tick w) then true
       else local_write_ok env
              (if db env then S (S (tick w)) else tick w))
  /\ saveDailyData env d wd s c p w
     = if remote_write_ok env (tick w) then
         (Returned true,
          mkWorld
            (set d (mkDay None d wd s c (iso (clock env (tick w))) p)
                 (remote w))
            (local w) (S (S (tick w))) (heatmapData w)
            (CallSave d :: calls w))
       else if db env then
         saveToLocalStorage env d wd s c None
           (later 2 (called (CallSave d) w))
       else
         saveToLocalStorage env d wd s c p (called (CallSave d) w).
Proof.
  unfold remote_write_ok.
  destruct (db env) eqn:Hdb.
  - destruct (remote_throws env (S (tick w))) eqn:Hr; simpl.
    + assert (saveDailyData env d wd s c p w
              = saveToLocalStorage env d wd s c None
                  (later 2 (called (CallSave d) w))) as E.
      { unfold later, called. run_facade. rewrite Hdb. simpl. rewrite Hr.
        reflexivity. }
      split; [| exact E].
      unfold eval. rewrite E.
      apply (saveToLocalStorage_resolves env d wd s c None
               (later 2 (called (CallSave d) w))).
    + run_facade. rewrite Hdb. simpl. rewrite Hr.
      split; reflexivity.
  - simpl.
    assert (saveDailyData env d wd s c p w
            = saveToLocalStorage env d wd s c p (called (CallSave d) w)) as E.
    { unfold saveDailyData, bind, record_call. simpl.
      unfold try_catch at 1. rewrite Hdb. simpl.
      pose proof (saveToLocalStorage_resolves env d wd s c p
                    (called (CallSave d) w)) as H.
      unfold eval, called in *.
      destruct (saveToLocalStorage env d wd s c p _) as [[b |] w'];
        [reflexivity | discriminate H]. }
    split; [| exact E].
    unfold eval. rewrite E.
    apply (saveToLocalStorage_resolves env d wd s c p (called (CallSave d) w)).
Qed.

(** C5: [saveDailyData] never raises and always completes with a
    boolean. The boolean is [true] when the remote write goes through;
    when the remote handle is missing or the remote write raises, the
    call is the call of [saveToLocalStorage] and the boolean is [true]
    when that local write goes through, so it is [false] only when both
    backends fail. *)
Theorem saveDailyData_resolves (env : Env) (d wd : string) (s : num)
  (c : string) (p : option PhasesObj) (w : World) :
  exists b,
    eval (saveDailyData env d wd s c p) w = Returned b
    /\ b = remote_write_ok env (tick w)
           || local_write_ok env (if db env then S (S (tick w)) else tick w)
    /\ saveDailyData env d wd s c p w
       = if remote_write_ok env (tick w) then
           (Returned true,
            mkWorld
              (set d (mkDay None d wd s c (iso (clock env (tick w))) p)
                   (remote w))
              (local w) (S (S (tick w))) (heatmapData w)
              (CallSave d :: calls w))
         else if db env then
           saveToLocalStorage env d wd s c None
             (later 2 (called (CallSave d) w))
         else
           saveToLocalStorage env d wd s c p (called (CallSave d) w).
Proof.
  destruct (saveDailyData_routing env d wd s c p w) as [Ha Hr].
  eexists. split; [exact Ha | split; [| exact Hr]].
  destruct (remote_write_ok env (tick w)); reflexivity.
Qed.

Example write_falls_back_to_local :
  eval (saveDailyData remote_down "2024-03-05" "Tuesday" (Num 20) "#E8F5E8"
          None) emptyWorld = Returned true
  /\ eval (saveDailyData
             (mkEnv true (fun _ => true) (fun _ => true)
                    (fun _ => tuesday_morning) sort_desc sort_desc)
             "2024-03-05" "Tuesday" (Num 20) "#E8F5E8" None) emptyWorld
     = Returned false.
Proof. split; reflexivity. Qed.

(* ===================================================================== *)
(** ** Properties of the aggregator *)
(* ===================================================================== *)

Lemma validateAllPhases_unset (phaseData : list PhaseSelection) :
  Forall (fun p => status p = "") phaseData ->
  validateAllPhases phaseData = false.
Proof.
  unfold validateAllPhases.
  induction 1 as [| p l Hp _ IH]; simpl; [reflexivity |].
  now rewrite Hp, IH.
Qed.

(** C6: when every submitted phase has an empty status,
    [handleGenerateClick] ends with the validation message and leaves the
    world as it was: no store is touched, no external interaction takes
    place and the trace of facade invocations does not grow. *)
Theorem handleGenerateClick_rejects_unset (env : Env)
  (phaseData : list PhaseSelection) (w : World) :
  Forall (fun p => status p = "") phaseData ->
  handleGenerateClick env phaseData w = (Returned PleaseSelectStatus, w).
Proof.
  intros H. unfold handleGenerateClick, try_catch.
  now rewrite (validateAllPhases_unset _ H).
Qed.

Lemma handleGenerateClick_rejects_unset_witness :
  handleGenerateClick online [unset 1; unset 2; unset 3; unset 4; unset 5]
    (exec (savePhaseData online "2024-03-04" "Monday" first_submission)
       emptyWorld)
  = (Returned PleaseSelectStatus,
     exec (savePhaseData online "2024-03-04" "Monday" first_submission)
       emptyWorld).
Proof.
  apply handleGenerateClick_rejects_unset.
  repeat constructor.
Defined.

(** With one status set the facade is invoked. *)
Example handleGenerateClick_invokes_facade :
  calls (exec (handleGenerateClick offline first_submission) emptyWorld)
  = [ CallFetchAll; CallSave "2024-03-05"; CallFetchAll;
      CallSave "2024-03-05"; CallFetchAll ].
Proof. reflexivity. Qed.

(** *** The generate flow at concrete submissions *)

(** C1 at a failing input: on an empty store, phase 1 is submitted as
    passed and highly productive. [savePhaseData] stores a consistent
    record (score 20, the phase in the phases map), but the write of
    [updateHeatmapColor] that follows passes no phases and replaces the
    record: the stored day keeps the score 20 and has no phases map any
    more, so its score is not the score of its phases. This happens with
    the local and with the remote backend. *)
Theorem generate_flow_breaks_consistency :
  local (exec (savePhaseData offline "2024-03-05" "Tuesday" first_submission)
           emptyWorld)
  = [("2024-03-05", day (Num 20) "#E8F5E8" (Some [("phase1", phase1_record)]))]
  /\ consistent (day (Num 20) "#E8F5E8" (Some [("phase1", phase1_record)]))
  /\ local (exec (handleGenerateClick offline first_submission) emptyWorld)
     = [("2024-03-05", day (Num 20) "#E8F5E8" None)]
  /\ remote (exec (handleGenerateClick online first_submission) emptyWorld)
     = [("2024-03-05", day (Num 20) "#E8F5E8" None)]
  /\ ~ consistent (day (Num 20) "#E8F5E8" None).
Proof.
  split; [reflexivity |].
  split; [split; reflexivity |].
  split; [reflexivity |].
  split; [reflexivity |].
  intros [H _]. discriminate H.
Qed.

(** C2 at a failing input: the remote handle exists and [setDoc] raises.
    [saveDailyData], called with a phases map, answers [true], but its
    fallback calls [saveToLocalStorage] without the phases, and the record
    [fetchAllData] returns for that date has no phases map. When the
    handle is missing, or when the remote write goes through, the same
    call stores the phases and they are read back. *)
Theorem remote_failure_drops_phases :
  let written := Some [("phase1", phase1_record)] in
  eval (saveDailyData remote_down "2024-03-05" "Tuesday" (Num 20) "#E8F5E8"
          written) emptyWorld = Returned true
  /\ eval (fetchAllData remote_down)
       (exec (saveDailyData remote_down "2024-03-05" "Tuesday" (Num 20)
                "#E8F5E8" written) emptyWorld)
     = Returned [day (Num 20) "#E8F5E8" None]
  /\ eval (fetchAllData offline)
       (exec (saveDailyData offline "2024-03-05" "Tuesday" (Num 20)
                "#E8F5E8" written) emptyWorld)
     = Returned [day (Num 20) "#E8F5E8" written]
  /\ eval (fetchAllData online)
       (exec (saveDailyData online "2024-03-05" "Tuesday" (Num 20)
                "#E8F5E8" written) emptyWorld)
     = Returned [with_id ("2024-03-05", day (Num 20) "#E8F5E8" written)].
Proof. repeat split. Qed.

(** C3 at the input of the claim: phase 1 is submitted as passed and
    highly productive, then phase 2 as passed and average, each time
    through the whole of [handleGenerateClick]. The first flow ends with
    a stored day without phases map, so the second merge starts from an
    empty map: the stored day ends with score 16 (36 when the controls of
    phase 1 still hold their values and are submitted again) and, either
    way, without phases map. Two calls of [savePhaseData] alone give the
    score 36 and both entries. *)
Theorem second_flow_does_not_accumulate :
  let w1 := exec (handleGenerateClick offline first_submission) emptyWorld in
  eval (handleGenerateClick offline first_submission) emptyWorld
  = Returned (PhaseSaved (Num 20))
  /\ eval (handleGenerateClick offline second_submission) w1
     = Returned (PhaseSaved (Num 16))
  /\ local (exec (handleGenerateClick offline second_submission) w1)
     = [("2024-03-05", day (Num 16) "#E8F5E8" None)]
  /\ local (exec (handleGenerateClick offline second_submission_same_page) w1)
     = [("2024-03-05", day (Num 36) "#65cd68ff" None)]
  /\ remote (exec (handleGenerateClick online second_submission)
               (exec (handleGenerateClick online first_submission) emptyWorld))
     = [("2024-03-05", day (Num 16) "#E8F5E8" None)]
  /\ local (exec (savePhaseData offline "2024-03-05" "Tuesday" second_submission)
              (exec (savePhaseData offline "2024-03-05" "Tuesday"
                       first_submission) emptyWorld))
     = [("2024-03-05",
         day (Num 36) "#65cd68ff"
           (Some [("phase1", phase1_record); ("phase2", phase2_record)]))].
Proof. repeat split. Qed.

(* ===================================================================== *)
(** ** Further properties of the scoring engine *)
(* ===================================================================== *)

Lemma scorePhaseObject_of_selection (t : total) (ts : string)
  (p : PhaseSelection) :
  scorePhaseObject t (asPhaseObject ts p) = scoreSelection t p.
Proof.
  unfold scorePhaseObject, scoreSelection, asPhaseObject. simpl.
  destruct (truthy (status p)); [| reflexivity].
  destruct (String.eqb (status p) "failed"); [reflexivity |].
  destruct (productivity p); reflexivity.
Qed.

(** X1: the two scoring functions agree: the score [savePhaseData]
    computes for the phase objects built from a submission is the score
    [calculateProductivityScore] gives for the submission itself, for
    every status and productivity string. *)
Theorem stored_score_equals_submission_score (ts : string)
  (phaseData : list PhaseSelection) :
  calculateScoreFromPhaseObjects (map (asPhaseObject ts) phaseData)
  = calculateProductivityScore phaseData.
Proof.
  unfold calculateScoreFromPhaseObjects, calculateProductivityScore. f_equal.
  generalize (TNum 0).
  induction phaseData as [| p l IH]; intros t; simpl; [reflexivity |].
  now rewrite scorePhaseObject_of_selection, IH.
Qed.

(** X2: for plain phases in any number, also more than five, the score
    is the sum of the contributions cut at 100: the sum is never
    negative, so only the upper bound of the clamp ever acts. *)
Theorem clamp_caps_long_collections (l : list PhaseSelection) :
  Forall plain_selection l ->
  exists sum,
    fold_left scoreSelection l (TNum 0) = TNum sum
    /\ 0 <= sum <= 20 * Z.of_nat (List.length l)
    /\ calculateProductivityScore l = Num (Z.min 100 sum)
    /\ 0 <= Z.min 100 sum <= 100.
Proof.
  intros Hplain.
  destruct (sum_selections_bounded l Hplain 0) as (s & Hs & Hb).
  exists s. unfold calculateProductivityScore. rewrite Hs. cbn [clamp].
  repeat split; try lia. f_equal. lia.
Qed.

Lemma clamp_caps_long_collections_witness :
  exists sum,
    fold_left scoreSelection
      (repeat (mkSelection 1 "passed" "highly-productive") 6) (TNum 0)
    = TNum sum
    /\ 0 <= sum
       <= 20 * Z.of_nat
            (List.length
               (repeat (mkSelection 1 "passed" "highly-productive") 6))
    /\ calculateProductivityScore
         (repeat (mkSelection 1 "passed" "highly-productive") 6)
       = Num (Z.min 100 sum)
    /\ 0 <= Z.min 100 sum <= 100.
Proof.
  apply clamp_caps_long_collections. simpl. repeat constructor.
Defined.

Example six_best_phases :
  fold_left scoreSelection
    (repeat (mkSelection 1 "passed" "highly-productive") 6) (TNum 0)
  = TNum 120
  /\ calculateProductivityScore
       (repeat (mkSelection 1 "passed" "highly-productive") 6) = Num 100.
Proof. split; reflexivity. Qed.

(** X3: adding a plain phase anywhere in a collection of plain phases
    never lowers the score and raises it by at most 20. *)
Theorem score_monotone (before after : list PhaseSelection)
  (p : PhaseSelection) :
  Forall plain_selection (before ++ after) ->
  plain_selection p ->
  exists a b,
    calculateProductivityScore (before ++ after) = Num a
    /\ calculateProductivityScore (before ++ p :: after) = Num b
    /\ a <= b <= a + 20.
Proof.
  intros Hl Hp.
  destruct (sum_selections_bounded _ Hl 0) as (s & Hs & Hb).
  destruct (scoreSelection_plain s p Hp) as (c & Hc & Hcb).
  assert (fold_left scoreSelection (before ++ p :: after) (TNum 0)
          = TNum (s + c)) as Hs'.
  { rewrite (fold_left_commutes scoreSelection (before ++ p :: after)
               ((before ++ after) ++ [p])).
    - rewrite fold_left_app, Hs. exact Hc.
    - intros t x y. apply scoreSelection_swap.
    - rewrite <- Permutation_middle. apply Permutation_cons_append. }
  exists (Z.min 100 (Z.max 0 s)), (Z.min 100 (Z.max 0 (s + c))).
  unfold calculateProductivityScore. rewrite Hs, Hs'. cbn [clamp].
  repeat split; lia.
Qed.

Lemma score_monotone_witness :
  exists a b,
    calculateProductivityScore
      ([mkSelection 1 "passed" "average"] ++ [mkSelection 3 "failed" ""])
    = Num a
    /\ calculateProductivityScore
         ([mkSelection 1 "passed" "average"]
          ++ mkSelection 2 "intentionally-declined" "productive"
          :: [mkSelection 3 "failed" ""]) = Num b
    /\ a <= b <= a + 20.
Proof.
  apply score_monotone.
  - simpl. repeat constructor.
  - split; reflexivity.
Defined.

Lemma fold_unset (l : list PhaseSelection) (t : total) :
  validateAllPhases l = false -> fold_left scoreSelection l t = t.
Proof.
  unfold validateAllPhases. revert t.
  induction l as [| p l IH]; intros t H; simpl in *; [reflexivity |].
  apply orb_false_iff in H. destruct H as [Hp Hl].
  unfold scoreSelection at 2. rewrite Hp. now apply IH.
Qed.

(** X4: a submission that [validateAllPhases] turns down scores 0,
    whatever productivity values it carries. *)
Theorem rejected_submission_scores_zero (phaseData : list PhaseSelection) :
  validateAllPhases phaseData = false ->
  calculateProductivityScore phaseData = Num 0
  /\ getColorForScore (calculateProductivityScore phaseData) = "#f0f0f0".
Proof.
  intros H. unfold calculateProductivityScore.
  rewrite (fold_unset _ _ H). split; reflexivity.
Qed.

Lemma rejected_submission_scores_zero_witness :
  calculateProductivityScore
    [mkSelection 1 "" "highly-productive"; mkSelection 2 "" "toString"]
  = Num 0
  /\ getColorForScore
       (calculateProductivityScore
          [mkSelection 1 "" "highly-productive"; mkSelection 2 "" "toString"])
     = "#f0f0f0".
Proof. apply rejected_submission_scores_zero. reflexivity. Defined.

(** Serialisation does not change the colour of a score. *)
Lemma getColorForScore_json (s : num) :
  getColorForScore (json s) = getColorForScore s.
Proof. destruct s; reflexivity. Qed.

Lemma json_idempotent (s : num) : json (json s) = json s.
Proof. destruct s; reflexivity. Qed.

(* ===================================================================== *)
(** ** Dates and phase keys *)
(* ===================================================================== *)

(** X5: [formatDate] returns the part of the ISO string before its first
    [T]: on an instant whose ISO string is a date without [T], then [T],
    then anything, it returns the date. *)
Theorem formatDate_date_part (d rest wd : string) :
  ~ In "T"%char (list_ascii_of_string d) ->
  formatDate (mkInstant (d ++ "T" ++ rest) wd) = d.
Proof.
  unfold formatDate. simpl iso.
  induction d as [| c d IH]; intros H; simpl.
  - reflexivity.
  - simpl in H. destruct (Ascii.eqb_spec c "T"%char) as [-> | _].
    + exfalso. apply H. now left.
    + f_equal. apply IH. intros Hin. apply H. now right.
Qed.

Lemma formatDate_date_part_witness :
  formatDate (mkInstant ("2024-03-05" ++ "T" ++ "09:30:00.000Z") "Tuesday")
  = "2024-03-05".
Proof.
  apply formatDate_date_part. simpl. intros H.
  repeat (destruct H as [H | H]; [discriminate H |]). exact H.
Defined.

Lemma to_uint_nonnil (n : nat) : Nat.to_uint n <> Decimal.Nil.
Proof.
  rewrite <- (DecimalNat.Unsigned.of_to n) at 1.
  rewrite DecimalNat.Unsigned.to_of. apply DecimalFacts.unorm_nonnil.
Qed.

Lemma phaseKey_inj (n m : nat) : phaseKey n = phaseKey m -> n = m.
Proof.
  unfold phaseKey. simpl. intros H. injection H as H.
  apply DecimalNat.Unsigned.to_uint_inj.
  pose proof (NilZero.usu _ (to_uint_nonnil n)) as Hn.
  pose proof (NilZero.usu _ (to_uint_nonnil m)) as Hm.
  rewrite H in Hn. rewrite Hn in Hm. now injection Hm.
Qed.

(** X6: [`phase${n}`] is injective: two different phase numbers never
    share a key of the phases object. *)
Theorem phaseKey_distinct (n m : nat) :
  n <> m -> phaseKey n <> phaseKey m.
Proof. intros Hne H. apply Hne. now apply phaseKey_inj. Qed.

Lemma phaseKey_distinct_witness : phaseKey 1 <> phaseKey 10.
Proof. apply phaseKey_distinct. discriminate. Defined.

(* ===================================================================== *)
(** ** Running the monad *)
(* ===================================================================== *)

Lemma bind_returned {A B : Type} (m : M A) (k : A -> M B) (w w' : World)
  (a : A) :
  m w = (Returned a, w') -> bind m k w = k a w'.
Proof. intros H. unfold bind. now rewrite H. Qed.

Lemma try_catch_returned {A : Type} (m h : M A) (w w' : World) (a : A) :
  m w = (Returned a, w') -> try_catch m h w = (Returned a, w').
Proof. intros H. unfold try_catch. now rewrite H. Qed.

(** A [try] whose handler returns a value never raises. *)
Lemma try_catch_total {A : Type} (m : M A) (a : A) (w : World) :
  exists x, eval (try_catch m (ret a)) w = Returned x.
Proof.
  unfold eval, try_catch, ret. destruct (m w) as [[x |] w']; simpl; eauto.
Qed.

Lemma exec_bind {A B : Type} (m : M A) (k : A -> M B) (w : World) :
  exec (bind m k) w
  = match eval m w with
    | Returned a => exec (k a) (exec m w)
    | Thrown => exec m w
    end.
Proof.
  unfold exec, eval, bind. destruct (m w) as [[a |] w']; reflexivity.
Qed.

Lemma exec_try_catch {A : Type} (m h : M A) (w : World) :
  exec (try_catch m h) w
  = match eval m w with
    | Returned _ => exec m w
    | Thrown => exec h (exec m w)
    end.
Proof.
  unfold exec, eval, try_catch. destruct (m w) as [[a |] w']; reflexivity.
Qed.

(** *** Relations every step of the code keeps *)

Section Keeps.

Variable env : Env.
Variable R : World -> World -> Prop.
Variable writable : string -> Prop.

Hypothesis R_trans : forall w1 w2 w3, R w1 w2 -> R w2 w3 -> R w1 w3.
Hypothesis R_same : forall w w', same_stores w w' -> R w w'.
Hypothesis R_setDoc :
  forall d r w t h c, writable d -> date r = d ->
    R w (mkWorld (set d r (remote w)) (local w) t h c).
Hypothesis R_setItem :
  forall d r w t h c, writable d -> date r = d ->
    R w (mkWorld (remote w) (json_store (set d r (local w))) t h c).

Lemma R_refl (w : World) : R w w.
Proof. apply R_same. split; reflexivity. Qed.

Lemma keeps_ret {A : Type} (a : A) : keeps R (ret a).
Proof. intros w. apply R_refl. Qed.

Lemma keeps_throw {A : Type} : keeps R (@throw A).
Proof. intros w. apply R_refl. Qed.

Lemma keeps_bind {A B : Type} (m : M A) (k : A -> M B) :
  keeps R m -> (forall a, keeps R (k a)) -> keeps R (bind m k).
Proof.
  intros Hm Hk w. rewrite exec_bind.
  destruct (eval m w) as [a |]; [| apply Hm].
  eapply R_trans; [apply Hm | apply Hk].
Qed.

Lemma keeps_try_catch {A : Type} (m h : M A) :
  keeps R m -> keeps R h -> keeps R (try_catch m h).
Proof.
  intros Hm Hh w. rewrite exec_try_catch.
  destruct (eval m w) as [a |]; [apply Hm |].
  eapply R_trans; [apply Hm | apply Hh].
Qed.

Lemma keeps_forEach {A B : Type} (f : B -> A -> M B) (l : list A) :
  (forall acc x, keeps R (f acc x)) ->
  forall acc, keeps R (forEach f l acc).
Proof.
  intros Hf. induction l as [| x l IH]; intros acc; simpl.
  - apply keeps_ret.
  - apply keeps_bind; [apply Hf | intros a; apply IH].
Qed.

Lemma keeps_interact : keeps R interact.
Proof. intros w. apply R_same. split; reflexivity. Qed.

Lemma keeps_record_call (c : FacadeCall) : keeps R (record_call c).
Proof. intros w. apply R_same. split; reflexivity. Qed.

Lemma keeps_set_heatmapData (d : list DayRecord) : keeps R (set_heatmapData d).
Proof. intros w. apply R_same. split; reflexivity. Qed.

Lemma keeps_now : keeps R (now env).
Proof.
  apply keeps_bind; [apply keeps_interact | intros n; apply keeps_ret].
Qed.

Lemma keeps_getDocs : keeps R (getDocs env).
Proof.
  apply keeps_bind; [apply keeps_interact | intros n].
  destruct (remote_throws env n); [apply keeps_throw |].
  intros w. apply R_refl.
Qed.

Lemma keeps_localStorage_parse : keeps R (localStorage_parse env).
Proof.
  apply keeps_bind; [apply keeps_interact | intros n].
  destruct (local_throws env n); [apply keeps_throw |].
  intros w. apply R_refl.
Qed.

Lemma keeps_setDoc (d : string) (r : DayRecord) :
  writable d -> date r = d -> keeps R (setDoc env d r).
Proof.
  intros Hw Hd. apply keeps_bind; [apply keeps_interact | intros n].
  destruct (remote_throws env n); [apply keeps_throw |].
  intros w. now apply R_setDoc.
Qed.

Lemma keeps_saveToLocalStorage (d wd : string) (s : num) (c : string)
  (p : option PhasesObj) :
  writable d -> keeps R (saveToLocalStorage env d wd s c p).
Proof.
  intros Hw w. unfold exec. run_facade.
  destruct (local_throws env (tick w)); cbn.
  - apply R_same. split; reflexivity.
  - destruct (local_throws env (S (S (tick w)))); cbn.
    + apply R_same. split; reflexivity.
    + now apply R_setItem.
Qed.

Lemma keeps_saveDailyData (d wd : string) (s : num) (c : string)
  (p : option PhasesObj) :
  writable d -> keeps R (saveDailyData env d wd s c p).
Proof.
  intros Hw. unfold saveDailyData.
  apply keeps_bind; [apply keeps_record_call | intros _].
  apply keeps_try_catch; [| now apply keeps_saveToLocalStorage].
  destruct (db env); cbn.
  - apply keeps_bind; [apply keeps_now | intros t].
    apply keeps_bind; [now apply keeps_setDoc | intros _; apply keeps_ret].
  - now apply keeps_saveToLocalStorage.
Qed.

Lemma keeps_fetchFromLocalStorage : keeps R (fetchFromLocalStorage env).
Proof.
  apply keeps_try_catch; [| apply keeps_ret].
  apply keeps_bind; [apply keeps_localStorage_parse | intros d].
  apply keeps_ret.
Qed.

Lemma keeps_fetchAllData : keeps R (fetchAllData env).
Proof.
  apply keeps_bind; [apply keeps_record_call | intros _].
  apply keeps_try_catch; [| apply keeps_fetchFromLocalStorage].
  destruct (db env); cbn;
    [apply keeps_getDocs | apply keeps_fetchFromLocalStorage].
Qed.

Lemma keeps_getTodayData (d : string) : keeps R (getTodayData env d).
Proof.
  apply keeps_try_catch; [| apply keeps_ret].
  apply keeps_bind; [apply keeps_fetchAllData | intros l; apply keeps_ret].
Qed.

Lemma keeps_mergePhase (acc : PhasesObj) (p : PhaseSelection) :
  keeps R (mergePhase env acc p).
Proof.
  unfold mergePhase. destruct (truthy (status p)); [| apply keeps_ret].
  apply keeps_bind; [apply keeps_now | intros t; apply keeps_ret].
Qed.

Lemma keeps_savePhaseData (d wd : string) (phaseData : list PhaseSelection) :
  writable d -> keeps R (savePhaseData env d wd phaseData).
Proof.
  intros Hw. apply keeps_try_catch; [| apply keeps_ret].
  apply keeps_bind; [apply keeps_getTodayData | intros existing].
  apply keeps_bind;
    [apply keeps_forEach; intros acc x; apply keeps_mergePhase | intros up].
  apply keeps_bind; [apply keeps_now | intros _].
  now apply keeps_saveDailyData.
Qed.

Lemma keeps_lockSavedPhases (d : string) : keeps R (lockSavedPhases env d).
Proof.
  apply keeps_try_catch; [| apply keeps_ret].
  apply keeps_bind; [apply keeps_getTodayData | intros _; apply keeps_ret].
Qed.

Lemma keeps_updateHeatmapColor (d wd : string) (s : num) (c : string) :
  writable d -> keeps R (updateHeatmapColor env d wd s c).
Proof.
  intros Hw. apply keeps_try_catch; [| apply keeps_ret].
  apply keeps_bind; [now apply keeps_saveDailyData | intros _; apply keeps_ret].
Qed.

Lemma keeps_loadHeatmapData : keeps R (loadHeatmapData env).
Proof.
  apply keeps_try_catch; [| apply keeps_ret].
  apply keeps_bind; [apply keeps_fetchAllData | intros d].
  apply keeps_set_heatmapData.
Qed.

Lemma keeps_generateAt (phaseData : list PhaseSelection) (t : Instant) :
  writable (formatDate t) -> keeps R (generateAt env phaseData t).
Proof.
  intros Hw. unfold generateAt.
  apply keeps_bind; [now apply keeps_savePhaseData | intros success].
  destruct success; [| apply keeps_throw].
  apply keeps_bind; [apply keeps_lockSavedPhases | intros _].
  apply keeps_bind; [now apply keeps_updateHeatmapColor | intros _].
  apply keeps_bind; [apply keeps_loadHeatmapData | intros _].
  apply keeps_ret.
Qed.

End Keeps.

(** [handleGenerateClick] is the validation, the clock and [generateAt]. *)
Lemma handleGenerateClick_unfold (env : Env) (phaseData : list PhaseSelection)
  (w : World) :
  handleGenerateClick env phaseData w
  = if validateAllPhases phaseData then
      try_catch (generateAt env phaseData (clock env (tick w)))
                (ret ErrorGenerating) (later 1 w)
    else (Returned PleaseSelectStatus, w).
Proof.
  unfold handleGenerateClick, generateAt.
  destruct (validateAllPhases phaseData); reflexivity.
Qed.

(* ===================================================================== *)
(** ** Stores as association lists *)
(* ===================================================================== *)

Section Objects.

Context {A : Type}.

Lemma assoc_set_same (k : string) (v : A) (o : list (string * A)) :
  assoc k (set k v o) = Some v.
Proof.
  induction o as [| [k' v'] o IH]; simpl.
  - now rewrite String.eqb_refl.
  - destruct (String.eqb k k') eqn:E; simpl.
    + now rewrite String.eqb_refl.
    + now rewrite E.
Qed.

Lemma assoc_set_other (k k' : string) (v : A) (o : list (string * A)) :
  k' <> k -> assoc k' (set k v o) = assoc k' o.
Proof.
  intros Hne. apply String.eqb_neq in Hne.
  induction o as [| [k0 v0] o IH]; simpl.
  - now rewrite Hne.
  - destruct (String.eqb_spec k k0) as [<- | Hk]; simpl.
    + now rewrite Hne.
    + now rewrite IH.
Qed.

Lemma keys_set (k : string) (v : A) (o : list (string * A)) (k' : string) :
  In k' (map fst (set k v o)) <-> k' = k \/ In k' (map fst o).
Proof.
  induction o as [| [k0 v0] o IH]; simpl.
  - intuition.
  - destruct (String.eqb_spec k k0) as [<- | Hk]; simpl.
    + intuition.
    + rewrite IH. intuition.
Qed.

Lemma NoDup_keys_set (k : string) (v : A) (o : list (string * A)) :
  NoDup (map fst o) -> NoDup (map fst (set k v o)).
Proof.
  induction o as [| [k0 v0] o IH]; simpl; intros H.
  - constructor; [intros [] | constructor].
  - inversion H as [| ? ? Hnot Hrest]; subst.
    destruct (String.eqb_spec k k0) as [<- | Hk]; simpl.
    + now constructor.
    + constructor; [| now apply IH].
      rewrite keys_set. intros [-> | Hin]; [now apply Hk | now apply Hnot].
Qed.

Lemma In_set (k : string) (v : A) (o : list (string * A)) (kv : string * A) :
  In kv (set k v o) -> kv = (k, v) \/ In kv o.
Proof.
  induction o as [| [k0 v0] o IH]; simpl.
  - intuition.
  - destruct (String.eqb k k0); simpl; intuition.
Qed.

Lemma assoc_In (k : string) (v : A) (o : list (string * A)) :
  assoc k o = Some v -> In (k, v) o.
Proof.
  induction o as [| [k0 v0] o IH]; simpl; [discriminate |].
  destruct (String.eqb_spec k k0) as [<- | Hk].
  - intros [= ->]. now left.
  - intros H. right. now apply IH.
Qed.

Lemma assoc_None (k : string) (o : list (string * A)) :
  assoc k o = None -> ~ In k (map fst o).
Proof.
  induction o as [| [k0 v0] o IH]; simpl; [tauto |].
  destruct (String.eqb_spec k k0) as [<- | Hk]; [discriminate |].
  intros H [E | Hin]; [now apply Hk | now apply IH].
Qed.

Lemma In_assoc (k : string) (v : A) (o : list (string * A)) :
  NoDup (map fst o) -> In (k, v) o -> assoc k o = Some v.
Proof.
  induction o as [| [k0 v0] o IH]; simpl; [tauto |].
  intros Hnd Hin. inversion Hnd as [| ? ? Hnot Hrest]; subst.
  destruct (String.eqb_spec k k0) as [<- | Hk].
  - destruct Hin as [[= ->] | Hin]; [reflexivity |].
    exfalso. apply Hnot. now apply (in_map fst) in Hin.
  - destruct Hin as [[= E _] | Hin]; [now exfalso; apply Hk |].
    now apply IH.
Qed.

End Objects.

Lemma json_record_idempotent (r : DayRecord) :
  json_record (json_record r) = json_record r.
Proof. unfold json_record. simpl. now rewrite json_idempotent. Qed.

Lemma assoc_json_store (k : string) (s : Store) :
  assoc k (json_store s) = option_map json_record (assoc k s).
Proof.
  induction s as [| [k0 r0] s IH]; simpl; [reflexivity |].
  destruct (String.eqb k k0); [reflexivity | exact IH].
Qed.

Lemma keys_json_store (s : Store) : map fst (json_store s) = map fst s.
Proof. unfold json_store. rewrite map_map. reflexivity. Qed.

Lemma well_keyed_set (d : string) (r : DayRecord) (s : Store) :
  date r = d -> well_keyed s -> well_keyed (set d r s).
Proof.
  intros Hd [Hnd Hk]. split; [now apply NoDup_keys_set |].
  rewrite Forall_forall in *. intros kv Hin.
  destruct (In_set _ _ _ _ Hin) as [-> | Hin']; [exact Hd | now apply Hk].
Qed.

Lemma well_keyed_json_store (s : Store) :
  well_keyed s -> well_keyed (json_store s).
Proof.
  intros [Hnd Hk]. split; [now rewrite keys_json_store |].
  unfold json_store. rewrite Forall_map. simpl.
  exact Hk.
Qed.

(** *** The relations *)

Lemma same_elsewhere_trans (d : string) (w1 w2 w3 : World) :
  same_elsewhere d w1 w2 -> same_elsewhere d w2 w3 -> same_elsewhere d w1 w3.
Proof.
  intros H12 H23 d' Hne.
  destruct (H12 d' Hne) as [Hr Hl], (H23 d' Hne) as [Hr' Hl'].
  split; congruence.
Qed.

Lemma same_elsewhere_same (d : string) (w w' : World) :
  same_stores w w' -> same_elsewhere d w w'.
Proof. intros [Hr Hl] d' _. now rewrite Hr, Hl. Qed.

Lemma same_elsewhere_setDoc (d0 d : string) (r : DayRecord) (w : World)
  (t : nat) (h : list DayRecord) (c : list FacadeCall) :
  d = d0 -> date r = d ->
  same_elsewhere d0 w (mkWorld (set d r (remote w)) (local w) t h c).
Proof.
  intros -> _ d' Hne. simpl. split; [now apply assoc_set_other | reflexivity].
Qed.

Lemma same_elsewhere_setItem (d0 d : string) (r : DayRecord) (w : World)
  (t : nat) (h : list DayRecord) (c : list FacadeCall) :
  d = d0 -> date r = d ->
  same_elsewhere d0 w
    (mkWorld (remote w) (json_store (set d r (local w))) t h c).
Proof.
  intros -> _ d' Hne. simpl. split; [reflexivity |].
  rewrite assoc_json_store, (assoc_set_other _ _ _ _ Hne).
  destruct (assoc d' (local w)) as [r' |]; simpl; [| reflexivity].
  now rewrite json_record_idempotent.
Qed.

Lemma keys_kept_trans (w1 w2 w3 : World) :
  keys_kept w1 w2 -> keys_kept w2 w3 -> keys_kept w1 w3.
Proof. unfold keys_kept. tauto. Qed.

Lemma keys_kept_same (w w' : World) : same_stores w w' -> keys_kept w w'.
Proof. intros [Hr Hl]. unfold keys_kept. now rewrite Hr, Hl. Qed.

Lemma keys_kept_setDoc (d : string) (r : DayRecord) (w : World)
  (t : nat) (h : list DayRecord) (c : list FacadeCall) :
  True -> date r = d ->
  keys_kept w (mkWorld (set d r (remote w)) (local w) t h c).
Proof.
  intros _ Hd. split; simpl; [now apply well_keyed_set | tauto].
Qed.

Lemma keys_kept_setItem (d : string) (r : DayRecord) (w : World)
  (t : nat) (h : list DayRecord) (c : list FacadeCall) :
  True -> date r = d ->
  keys_kept w (mkWorld (remote w) (json_store (set d r (local w))) t h c).
Proof.
  intros _ Hd. split; simpl; [tauto |].
  intros H. now apply well_keyed_json_store, well_keyed_set.
Qed.

(* ===================================================================== *)
(** ** What a write and a whole flow leave alone *)
(* ===================================================================== *)

(** X7: [saveDailyData] changes no record but the one of its date: for
    every other date both stores answer as before, whichever backend is
    used and whatever raises. *)
Theorem saveDailyData_touches_one_date (env : Env) (d wd : string) (s : num)
  (c : string) (p : option PhasesObj) (w : World) :
  same_elsewhere d w (exec (saveDailyData env d wd s c p) w).
Proof.
  apply (keeps_saveDailyData env (same_elsewhere d) (fun d' => d' = d)
           (same_elsewhere_trans d) (same_elsewhere_same d)
           (same_elsewhere_setDoc d) (same_elsewhere_setItem d));
    reflexivity.
Qed.

(** X8: a whole run of [handleGenerateClick] changes no record but the
    one of the day the clock shows when the button is pressed, for every
    submission, every environment and every pattern of failures. *)
Theorem handleGenerateClick_touches_one_date (env : Env)
  (phaseData : list PhaseSelection) (w : World) :
  same_elsewhere (formatDate (clock env (tick w))) w
    (exec (handleGenerateClick env phaseData) w).
Proof.
  unfold exec. rewrite handleGenerateClick_unfold.
  destruct (validateAllPhases phaseData);
    [| apply same_elsewhere_same; split; reflexivity].
  set (d := formatDate (clock env (tick w))).
  apply (same_elsewhere_trans d w (later 1 w));
    [apply same_elsewhere_same; split; reflexivity |].
  apply (keeps_try_catch (same_elsewhere d) (same_elsewhere_trans d)).
  - apply (keeps_generateAt env (same_elsewhere d) (fun d' => d' = d)
             (same_elsewhere_trans d) (same_elsewhere_same d)
             (same_elsewhere_setDoc d) (same_elsewhere_setItem d)).
    reflexivity.
  - apply keeps_ret. apply same_elsewhere_same.
Qed.

(** X9: [handleGenerateClick] keeps both stores well keyed (every record
    under its own date, no date twice), for every submission, every
    environment and every pattern of failures. *)
Theorem handleGenerateClick_keeps_keys (env : Env)
  (phaseData : list PhaseSelection) (w : World) :
  well_keyed (remote w) -> well_keyed (local w) ->
  well_keyed (remote (exec (handleGenerateClick env phaseData) w))
  /\ well_keyed (local (exec (handleGenerateClick env phaseData) w)).
Proof.
  intros Hr Hl.
  assert (keys_kept w (exec (handleGenerateClick env phaseData) w)) as [H1 H2].
  { unfold exec. rewrite handleGenerateClick_unfold.
    destruct (validateAllPhases phaseData);
      [| apply keys_kept_same; split; reflexivity].
    apply (keys_kept_trans w (later 1 w));
      [apply keys_kept_same; split; reflexivity |].
    apply (keeps_try_catch keys_kept keys_kept_trans).
    - apply (keeps_generateAt env keys_kept (fun _ => True)
               keys_kept_trans keys_kept_same
               keys_kept_setDoc keys_kept_setItem).
      exact I.
    - apply keeps_ret. apply keys_kept_same. }
  split; [now apply H1 | now apply H2].
Qed.

Lemma empty_store_well_keyed : well_keyed [].
Proof. split; constructor. Qed.

Lemma handleGenerateClick_keeps_keys_witness :
  well_keyed (remote (exec (handleGenerateClick online first_submission)
                        emptyWorld))
  /\ well_keyed (local (exec (handleGenerateClick online first_submission)
                          emptyWorld)).
Proof.
  apply handleGenerateClick_keeps_keys; apply empty_store_well_keyed.
Defined.

(* ===================================================================== *)
(** ** Reading *)
(* ===================================================================== *)

Lemma fetchAllData_run (env : Env) (w : World) :
  fetchAllData env w = (Returned (fetched env w), after_fetch env w).
Proof.
  unfold fetched, after_fetch, later, called.
  cbv [fetchAllData fetchFromLocalStorage getDocs localStorage_parse
       try_catch bind ret throw interact record_call].
  cbn [fst snd tick remote local heatmapData calls].
  destruct (db env); cbn.
  - destruct (remote_throws env (tick w)); cbn; [| reflexivity].
    destruct (local_throws env (S (tick w))); reflexivity.
  - destruct (local_throws env (tick w)); reflexivity.
Qed.

Lemma getTodayData_run (env : Env) (d : string) (w : World) :
  getTodayData env d w
  = (Returned (todayIn d (fetched env w)), after_fetch env w).
Proof.
  unfold getTodayData, try_catch, bind. rewrite fetchAllData_run.
  reflexivity.
Qed.

(** X10: [fetchAllData] never raises and only reads: both stores and the
    in-memory snapshot are as before. It answers with the remote
    documents when the handle exists and [getDocs] goes through,
    otherwise with the local records, and with the empty array when the
    local store raises as well. *)
Theorem fetchAllData_reads_only (env : Env) (w : World) :
  eval (fetchAllData env) w = Returned (fetched env w)
  /\ same_stores w (exec (fetchAllData env) w)
  /\ heatmapData (exec (fetchAllData env) w) = heatmapData w
  /\ (remote_throws env (tick w) = true ->
      local_throws env (S (tick w)) = true ->
      local_throws env (tick w) = true ->
      eval (fetchAllData env) w = Returned []).
Proof.
  unfold eval, exec. rewrite fetchAllData_run. simpl.
  repeat split.
  intros Hr Hl1 Hl0. unfold fetched. rewrite Hr.
  destruct (db env); simpl; [now rewrite Hl1 | now rewrite Hl0].
Qed.

Lemma fetchAllData_reads_only_witness :
  eval (fetchAllData
          (mkEnv true (fun _ => true) (fun _ => true)
                 (fun _ => tuesday_morning) sort_desc sort_desc))
       (mkWorld [("2024-03-05", day (Num 20) "#E8F5E8" None)]
                [("2024-03-04",
                  mkDay None "2024-03-04" "Monday" (Num 16) "#E8F5E8"
                        "2024-03-04T18:00:00.000Z" None)] 0 [] [])
  = Returned [].
Proof.
  apply (fetchAllData_reads_only
           (mkEnv true (fun _ => true) (fun _ => true)
                  (fun _ => tuesday_morning) sort_desc sort_desc));
    reflexivity.
Defined.

(** X11: [getTodayData] never raises; when no fetched record carries the
    date (in particular when nothing can be fetched) it answers with the
    empty day: no phases, score 0 and the no-data colour. *)
Theorem getTodayData_defaults (env : Env) (d : string) (w : World) :
  (forall r, In r (fetched env w) -> date r <> d) ->
  eval (getTodayData env d) w = Returned emptyToday
  /\ same_stores w (exec (getTodayData env d) w).
Proof.
  intros H. unfold eval, exec. rewrite getTodayData_run. simpl.
  split; [| split; reflexivity].
  f_equal. unfold todayIn.
  destruct (find _ (fetched env w)) as [r |] eqn:E; [| reflexivity].
  apply find_some in E. destruct E as [Hin Hd].
  apply String.eqb_eq in Hd. now apply H in Hin.
Qed.

Lemma getTodayData_defaults_witness :
  eval (getTodayData offline "2024-03-06")
       (mkWorld [] [("2024-03-05", day (Num 20) "#E8F5E8" None)] 7 [] [])
  = Returned emptyToday
  /\ same_stores
       (mkWorld [] [("2024-03-05", day (Num 20) "#E8F5E8" None)] 7 [] [])
       (exec (getTodayData offline "2024-03-06")
          (mkWorld [] [("2024-03-05", day (Num 20) "#E8F5E8" None)] 7 [] [])).
Proof.
  apply getTodayData_defaults.
  intros r H. vm_compute in H. destruct H as [<- | []]. discriminate.
Defined.

(** *** Finding a day among the fetched records *)

Lemma find_by_date (g : string * DayRecord -> DayRecord) (s : Store)
  (l : list DayRecord) (d : string) :
  (forall kv, date (g kv) = date (snd kv)) ->
  well_keyed s ->
  Permutation l (map g s) ->
  find (fun item => String.eqb (date item) d) l
  = option_map (fun r => g (d, r)) (assoc d s).
Proof.
  intros Hg [Hnd Hk] Hp. rewrite Forall_forall in Hk.
  assert (forall x, In x l ->
            String.eqb (date x) d = true ->
            exists r, x = g (d, r) /\ In (d, r) s) as Hmatch.
  { intros x Hin Hd. apply String.eqb_eq in Hd.
    apply (Permutation_in _ Hp) in Hin. apply in_map_iff in Hin.
    destruct Hin as ([k r] & <- & Hin).
    specialize (Hk _ Hin). specialize (Hg (k, r)). simpl in *.
    assert (k = d) as -> by congruence. eauto. }
  destruct (assoc d s) as [r |] eqn:Ea; simpl.
  - destruct (find _ l) as [x |] eqn:Ef.
    + apply find_some in Ef. destruct Ef as [Hin Hd].
      destruct (Hmatch x Hin Hd) as (r' & -> & Hin').
      apply (In_assoc _ _ _ Hnd) in Hin'. congruence.
    + apply assoc_In in Ea.
      assert (In (g (d, r)) l) as Hin.
      { apply (Permutation_in _ (Permutation_sym Hp)).
        apply in_map_iff. eauto. }
      apply (find_none _ _ Ef) in Hin.
      pose proof (Hk _ Ea) as Hkr. simpl in Hkr.
      rewrite Hg in Hin. simpl in Hin. rewrite Hkr in Hin.
      now rewrite String.eqb_refl in Hin.
  - destruct (find _ l) as [x |] eqn:Ef; [| reflexivity].
    apply find_some in Ef. destruct Ef as [Hin Hd].
    destruct (Hmatch x Hin Hd) as (r' & _ & Hin').
    apply assoc_None in Ea. exfalso. apply Ea.
    now apply (in_map fst) in Hin'.
Qed.

(* ===================================================================== *)
(** ** Round trips on the paths that keep the phases *)
(* ===================================================================== *)

(** X12: without remote handle, a day written by [saveDailyData] and read
    back by [getTodayData] has the colour and the phases that were
    written (no phases when none were passed, whatever was stored
    before) and the score as it reads back from JSON. The local store
    must go through on the write and on the read, the store must be well
    keyed and [sort] must return a permutation. *)
Theorem local_round_trip (env : Env) (d wd : string) (s : num) (c : string)
  (p : option PhasesObj) (w : World) :
  db env = false ->
  local_write_ok env (tick w) = true ->
  local_throws env (3 + tick w) = false ->
  (forall l, Permutation (array_sort env l) l) ->
  well_keyed (local w) ->
  eval (getTodayData env d) (exec (saveDailyData env d wd s c p) w)
  = Returned (mkToday p (json s) c).
Proof.
  intros Hdb Hok Hread Hsort Hwk.
  destruct (saveDailyData_routing env d wd s c p w) as [_ Hroute].
  unfold remote_write_ok in Hroute. rewrite Hdb in Hroute. simpl in Hroute.
  assert (exec (saveDailyData env d wd s c p) w
          = exec (saveToLocalStorage env d wd s c p) (called (CallSave d) w))
    as Hw by (unfold exec; now rewrite Hroute).
  pose proof (saveToLocalStorage_stores env d wd s c p
                (called (CallSave d) w) Hok) as Hlocal.
  assert (tick (exec (saveToLocalStorage env d wd s c p)
                  (called (CallSave d) w)) = (3 + tick w)%nat) as Htick.
  { unfold local_write_ok in Hok. apply andb_true_iff in Hok.
    destruct Hok as [H1 H2]. apply negb_true_iff in H1, H2.
    unfold called. run_facade. rewrite H1. cbn. rewrite H2. reflexivity. }
  unfold eval. rewrite getTodayData_run. simpl. f_equal.
  rewrite Hw. unfold fetched. rewrite Hdb. simpl.
  rewrite Htick, Hread, Hlocal. unfold todayIn, values.
  rewrite (find_by_date snd
             (json_store
                (set d (mkDay None d wd s c
                          (iso (clock env (S (tick (called (CallSave d) w)))))
                          p)
                     (local (called (CallSave d) w))))).
  - rewrite assoc_json_store, assoc_set_same. reflexivity.
  - reflexivity.
  - apply well_keyed_json_store, well_keyed_set; [reflexivity | exact Hwk].
  - apply Hsort.
Qed.

Lemma sort_desc_permutation (l : list DayRecord) :
  Permutation (sort_desc l) l.
Proof.
  unfold sort_desc. induction l as [| r l IH]; simpl; [constructor |].
  transitivity (r :: fold_right insert_desc [] l); [| now constructor].
  generalize (fold_right insert_desc [] l). clear.
  intros l. induction l as [| x l IH]; simpl; [reflexivity |].
  destruct (String.leb (date x) (date r)); [reflexivity |].
  rewrite IH. apply perm_swap.
Qed.

Lemma local_round_trip_witness :
  eval (getTodayData offline "2024-03-05")
       (exec (saveDailyData offline "2024-03-05" "Tuesday" NaN "#E8F5E8" None)
          (mkWorld []
             [("2024-03-05",
               day (Num 20) "#E8F5E8" (Some [("phase1", phase1_record)]))]
             0 [] []))
  = Returned (mkToday None (json NaN) "#E8F5E8").
Proof.
  apply local_round_trip.
  - reflexivity.
  - reflexivity.
  - reflexivity.
  - apply sort_desc_permutation.
  - split; simpl; [constructor; [intros [] | constructor] | repeat constructor].
Defined.

(** X13: with the remote handle, when [setDoc] and the following
    [getDocs] go through, a day written by [saveDailyData] and read back
    by [getTodayData] has exactly the score, the colour and the phases
    that were written (no phases when none were passed: the document is
    replaced, not merged). The collection must be well keyed and the
    query must return a permutation of the documents. *)
Theorem remote_round_trip (env : Env) (d wd : string) (s : num) (c : string)
  (p : option PhasesObj) (w : World) :
  db env = true ->
  remote_throws env (S (tick w)) = false ->
  remote_throws env (2 + tick w) = false ->
  (forall l, Permutation (query_order env l) l) ->
  well_keyed (remote w) ->
  eval (getTodayData env d) (exec (saveDailyData env d wd s c p) w)
  = Returned (mkToday p s c).
Proof.
  intros Hdb Hset Hget Hquery Hwk.
  destruct (saveDailyData_routing env d wd s c p w) as [_ Hroute].
  unfold remote_write_ok in Hroute. rewrite Hdb, Hset in Hroute.
  simpl in Hroute.
  unfold eval, exec. rewrite Hroute, getTodayData_run. simpl. f_equal.
  cbn in Hget. unfold fetched. simpl. rewrite Hdb, Hget. simpl.
  unfold todayIn.
  rewrite (find_by_date with_id
             (set d (mkDay None d wd s c (iso (clock env (tick w))) p)
                  (remote w))).
  - rewrite assoc_set_same. reflexivity.
  - reflexivity.
  - apply well_keyed_set; [reflexivity | exact Hwk].
  - apply Hquery.
Qed.

Lemma remote_round_trip_witness :
  eval (getTodayData online "2024-03-05")
       (exec (saveDailyData online "2024-03-05" "Tuesday" (Num 36) "#65cd68ff"
                (Some [("phase1", phase1_record); ("phase2", phase2_record)]))
          (mkWorld [("2024-03-05", day (Num 20) "#E8F5E8" None);
                    ("2024-03-04",
                     mkDay None "2024-03-04" "Monday" (Num 100) "#0c6111ff"
                           "2024-03-04T18:00:00.000Z" None)]
                   [] 0 [] []))
  = Returned
      (mkToday (Some [("phase1", phase1_record); ("phase2", phase2_record)])
               (Num 36) "#65cd68ff").
Proof.
  apply remote_round_trip.
  - reflexivity.
  - reflexivity.
  - reflexivity.
  - apply sort_desc_permutation.
  - split; simpl.
    + repeat (constructor; [simpl; intuition discriminate |]). constructor.
    + repeat constructor.
Defined.

Lemma saveToLocalStorage_remote (env : Env) (d wd : string) (s : num)
  (c : string) (p : option PhasesObj) (w : World) :
  remote (exec (saveToLocalStorage env d wd s c p) w) = remote w.
Proof.
  unfold exec. run_facade.
  destruct (local_throws env (tick w)); cbn; [reflexivity |].
  destruct (local_throws env (S (S (tick w)))); reflexivity.
Qed.

(** X14: when the handle exists, [setDoc] raises and the local write
    goes through, [saveDailyData] answers [true], leaves the remote
    collection as it was and stores the day locally with the score (as it
    reads back from JSON), the colour and no phases field, whatever
    phases were passed. *)
Theorem fallback_write_has_no_phases (env : Env) (d wd : string) (s : num)
  (c : string) (p : option PhasesObj) (w : World) :
  db env = true ->
  remote_throws env (S (tick w)) = true ->
  local_write_ok env (2 + tick w) = true ->
  eval (saveDailyData env d wd s c p) w = Returned true
  /\ remote (exec (saveDailyData env d wd s c p) w) = remote w
  /\ exists ts,
       assoc d (local (exec (saveDailyData env d wd s c p) w))
       = Some (mkDay None d wd (json s) c ts None).
Proof.
  intros Hdb Hset Hok.
  destruct (saveDailyData_routing env d wd s c p w) as [_ Hroute].
  unfold remote_write_ok in Hroute. rewrite Hdb, Hset in Hroute.
  simpl in Hroute.
  pose proof (saveToLocalStorage_resolves env d wd s c None
                (later 2 (called (CallSave d) w))) as Hres.
  pose proof (saveToLocalStorage_stores env d wd s c None
                (later 2 (called (CallSave d) w)) Hok) as Hst.
  change (tick (later 2 (called (CallSave d) w))) with (2 + tick w)%nat
    in Hres.
  rewrite Hok in Hres.
  unfold eval, exec in *. rewrite Hroute.
  split; [exact Hres |]. split.
  - apply (saveToLocalStorage_remote env d wd s c None
             (later 2 (called (CallSave d) w))).
  - rewrite Hst, assoc_json_store, assoc_set_same. eexists. reflexivity.
Qed.

Lemma fallback_write_has_no_phases_witness :
  eval (saveDailyData remote_down "2024-03-05" "Tuesday" (Num 36) "#65cd68ff"
          (Some [("phase1", phase1_record); ("phase2", phase2_record)]))
       emptyWorld = Returned true
  /\ remote
       (exec (saveDailyData remote_down "2024-03-05" "Tuesday" (Num 36)
                "#65cd68ff"
                (Some [("phase1", phase1_record); ("phase2", phase2_record)]))
          emptyWorld) = remote emptyWorld
  /\ exists ts,
       assoc "2024-03-05"
         (local
            (exec (saveDailyData remote_down "2024-03-05" "Tuesday" (Num 36)
                     "#65cd68ff"
                     (Some [("phase1", phase1_record);
                            ("phase2", phase2_record)]))
               emptyWorld))
       = Some (mkDay None "2024-03-05" "Tuesday" (json (Num 36)) "#65cd68ff"
                 ts None).
Proof. apply fallback_write_has_no_phases; reflexivity. Defined.

(* ===================================================================== *)
(** ** Outcome of the generate flow *)
(* ===================================================================== *)

Lemma try_catch_unit (m : M unit) (w : World) :
  exists w', try_catch m (ret tt) w = (Returned tt, w').
Proof.
  unfold try_catch, ret. destruct (m w) as [[[] |] w']; eauto.
Qed.

(** X15: an accepted submission never makes [handleGenerateClick] raise.
    [savePhaseData] answers a boolean; when it is [true] the user is
    shown the score of the phases submitted in this click (not the score
    that was stored for the merged day), whatever the later steps of the
    flow do; when it is [false] the user gets the error message. *)
Theorem generate_outcome (env : Env) (phaseData : list PhaseSelection)
  (w : World) :
  validateAllPhases phaseData = true ->
  exists saved,
    eval (savePhaseData env (formatDate (clock env (tick w)))
            (getWeekday (clock env (tick w))) phaseData) (later 1 w)
    = Returned saved
    /\ eval (handleGenerateClick env phaseData) w
       = Returned (if saved
                   then PhaseSaved (calculateProductivityScore phaseData)
                   else ErrorGenerating).
Proof.
  intros Hv. unfold eval. rewrite handleGenerateClick_unfold, Hv.
  set (t := clock env (tick w)).
  destruct (try_catch_total
              (existingData <- getTodayData env (formatDate t) ;;
               updatedPhases <-
                 forEach (mergePhase env) phaseData
                   (spread (today_phases existingData)) ;;
               now env ;;
               saveDailyData env (formatDate t) (getWeekday t)
                 (calculateScoreFromPhaseObjects (values updatedPhases))
                 (getColorForScore
                    (calculateScoreFromPhaseObjects (values updatedPhases)))
                 (Some updatedPhases))
              false (later 1 w)) as [saved Hs].
  fold (savePhaseData env (formatDate t) (getWeekday t) phaseData) in Hs.
  unfold eval in Hs.
  exists saved. split; [exact Hs |].
  unfold try_catch at 1. unfold generateAt. unfold bind at 1.
  destruct (savePhaseData env (formatDate t) (getWeekday t) phaseData
              (later 1 w)) as [[b |] w1]; simpl in Hs; [| discriminate Hs].
  injection Hs as ->.
  destruct saved; [| reflexivity].
  unfold bind.
  destruct (try_catch_unit
              (getTodayData env (formatDate t) ;; ret tt) w1) as [w2 H2].
  fold (lockSavedPhases env (formatDate t)) in H2. rewrite H2.
  destruct (try_catch_unit
              (saveDailyData env (formatDate t) (getWeekday t)
                 (calculateProductivityScore phaseData)
                 (getColorForScore (calculateProductivityScore phaseData))
                 None ;; ret tt) w2) as [w3 H3].
  fold (updateHeatmapColor env (formatDate t) (getWeekday t)
          (calculateProductivityScore phaseData)
          (getColorForScore (calculateProductivityScore phaseData))) in H3.
  rewrite H3.
  destruct (try_catch_unit
              (d <- fetchAllData env ;; set_heatmapData d) w3) as [w4 H4].
  fold (loadHeatmapData env) in H4. rewrite H4.
  reflexivity.
Qed.

Lemma generate_outcome_witness :
  exists saved,
    eval (savePhaseData remote_down
            (formatDate (clock remote_down (tick emptyWorld)))
            (getWeekday (clock remote_down (tick emptyWorld)))
            second_submission_same_page) (later 1 emptyWorld)
    = Returned saved
    /\ eval (handleGenerateClick remote_down second_submission_same_page)
         emptyWorld
       = Returned (if saved
                   then PhaseSaved
                          (calculateProductivityScore
                             second_submission_same_page)
                   else ErrorGenerating).
Proof. apply generate_outcome. reflexivity. Defined.

(* ===================================================================== *)
(** ** The merge of [savePhaseData] *)
(* ===================================================================== *)

Lemma forEach_mergePhase_run (env : Env) (l : list PhaseSelection)
  (acc : PhasesObj) (w : World) :
  forEach (mergePhase env) l acc w
  = (Returned (mergedPhases env (tick w) l acc), later (stamps l) w).
Proof.
  revert acc w. induction l as [| p l IH]; intros acc w.
  - destruct w; reflexivity.
  - cbn [forEach mergedPhases]. unfold stamps. cbn [filter].
    unfold mergePhase at 1.
    destruct (truthy (status p)).
    + unfold bind at 1. cbv [now bind interact ret]. cbn.
      rewrite IH. cbn. unfold later, stamps. cbn. do 3 f_equal. lia.
    + unfold bind at 1. unfold ret at 1. rewrite IH. reflexivity.
Qed.

Lemma merged_keeps_keys (env : Env) (k : string) (l : list PhaseSelection) :
  forall n acc, assoc k acc <> None ->
                assoc k (mergedPhases env n l acc) <> None.
Proof.
  induction l as [| p l IH]; intros n acc H; simpl; [exact H |].
  destruct (truthy (status p)); [| now apply IH].
  apply IH.
  destruct (String.eqb_spec k (phaseKey (phase p))) as [-> | Hne].
  - now rewrite assoc_set_same.
  - now rewrite assoc_set_other.
Qed.

Lemma merged_untouched (env : Env) (k : string) (l : list PhaseSelection) :
  (forall p, In p l -> truthy (status p) = true -> phaseKey (phase p) <> k) ->
  forall n acc, assoc k (mergedPhases env n l acc) = assoc k acc.
Proof.
  induction l as [| p l IH]; intros H n acc; simpl; [reflexivity |].
  assert (forall q, In q l -> truthy (status q) = true ->
                    phaseKey (phase q) <> k) as Hl
    by (intros q Hq; apply H; now right).
  destruct (truthy (status p)) eqn:E; [| now apply IH].
  rewrite (IH Hl). apply assoc_set_other.
  intros ->. now apply (H p (or_introl eq_refl) E).
Qed.

Lemma merged_exact (env : Env) (p : PhaseSelection)
  (l : list PhaseSelection) :
  NoDup (map phase l) -> In p l -> truthy (status p) = true ->
  forall n acc, exists ts,
    assoc (phaseKey (phase p)) (mergedPhases env n l acc)
    = Some (mkPhase (status p) (productivity p) ts true).
Proof.
  induction l as [| q l IH]; intros Hnd Hin Hp n acc; [destruct Hin |].
  simpl in Hnd. inversion Hnd as [| ? ? Hnot Hrest]; subst.
  destruct Hin as [-> | Hin].
  - simpl. rewrite Hp. exists (iso (clock env n)).
    rewrite merged_untouched; [apply assoc_set_same |].
    intros q Hq _ Heq. apply Hnot.
    destruct (Nat.eq_dec (phase q) (phase p)) as [E | E].
    + rewrite <- E. now apply in_map.
    + exfalso. apply E. now apply phaseKey_inj.
  - simpl. destruct (truthy (status q)); now apply IH.
Qed.

(** X16: the merge of [savePhaseData] never raises and touches no store.
    It never removes a phase that was stored, leaves alone every key that
    no submitted phase with a status maps to, and, when the submitted
    phase numbers are pairwise different, stores every submitted phase
    that has a status under its key, locked, with the status and the
    productivity submitted, whether or not a locked phase was stored
    there before. *)
Theorem merge_of_submission (env : Env) (phaseData : list PhaseSelection)
  (acc : PhasesObj) (w : World) :
  NoDup (map phase phaseData) ->
  exists merged,
    eval (forEach (mergePhase env) phaseData acc) w = Returned merged
    /\ same_stores w (exec (forEach (mergePhase env) phaseData acc) w)
    /\ (forall k, assoc k acc <> None -> assoc k merged <> None)
    /\ (forall k,
          (forall p, In p phaseData -> truthy (status p) = true ->
                     phaseKey (phase p) <> k) ->
          assoc k merged = assoc k acc)
    /\ (forall p, In p phaseData -> truthy (status p) = true ->
          exists ts,
            assoc (phaseKey (phase p)) merged
            = Some (mkPhase (status p) (productivity p) ts true)).
Proof.
  intros Hnd. exists (mergedPhases env (tick w) phaseData acc).
  unfold eval, exec. rewrite forEach_mergePhase_run. simpl.
  split; [reflexivity |]. split; [split; reflexivity |].
  split; [intros k; apply merged_keeps_keys |].
  split; [intros k H; now apply merged_untouched |].
  intros p Hin Hp. now apply merged_exact.
Qed.

Lemma merge_of_submission_witness :
  exists merged,
    eval (forEach (mergePhase offline) second_submission_same_page
            [("phase1", mkPhase "failed" "" "2024-03-05T08:00:00.000Z" true);
             ("phase4", phase2_record)]) emptyWorld
    = Returned merged
    /\ same_stores emptyWorld
         (exec (forEach (mergePhase offline) second_submission_same_page
                  [("phase1",
                    mkPhase "failed" "" "2024-03-05T08:00:00.000Z" true);
                   ("phase4", phase2_record)]) emptyWorld)
    /\ (forall k,
          assoc k
            [("phase1", mkPhase "failed" "" "2024-03-05T08:00:00.000Z" true);
             ("phase4", phase2_record)] <> None ->
          assoc k merged <> None)
    /\ (forall k,
          (forall p, In p second_submission_same_page ->
                     truthy (status p) = true -> phaseKey (phase p) <> k) ->
          assoc k merged
          = assoc k
              [("phase1",
                mkPhase "failed" "" "2024-03-05T08:00:00.000Z" true);
               ("phase4", phase2_record)])
    /\ (forall p, In p second_submission_same_page ->
          truthy (status p) = true ->
          exists ts,
            assoc (phaseKey (phase p)) merged
            = Some (mkPhase (status p) (productivity p) ts true)).
Proof.
  apply merge_of_submission. simpl.
  repeat (constructor; [simpl; intuition discriminate |]). constructor.
Defined.

Example merge_overwrites_locked_phase :
  eval (forEach (mergePhase offline) second_submission_same_page
          [("phase1", mkPhase "failed" "" "2024-03-05T08:00:00.000Z" true);
           ("phase4", phase2_record)]) emptyWorld
  = Returned [("phase1", phase1_record); ("phase4", phase2_record);
              ("phase2", phase2_record)].
Proof. reflexivity. Qed.

Lemma set_fresh {A : Type} (k : string) (v : A) (o : list (string * A)) :
  assoc k o = None -> set k v o = (o ++ [(k, v)])%list.
Proof.
  induction o as [| [k0 v0] o IH]; simpl; [reflexivity |].
  destruct (String.eqb k k0); [discriminate |].
  intros H. now rewrite IH.
Qed.

Lemma merged_score (env : Env) (l : list PhaseSelection) :
  NoDup (map phase l) ->
  forall n acc,
    (forall p, In p l -> truthy (status p) = true ->
               assoc (phaseKey (phase p)) acc = None) ->
    fold_left scorePhaseObject (values (mergedPhases env n l acc)) (TNum 0)
    = fold_left scoreSelection l
        (fold_left scorePhaseObject (values acc) (TNum 0)).
Proof.
  induction l as [| p l IH]; intros Hnd n acc Hfresh; [reflexivity |].
  simpl in Hnd. inversion Hnd as [| ? ? Hnot Hrest]; subst.
  cbn [mergedPhases fold_left].
  destruct (truthy (status p)) eqn:E.
  - rewrite IH; [| exact Hrest |].
    + f_equal. rewrite set_fresh by (apply Hfresh; [now left | exact E]).
      unfold values. rewrite map_app, fold_left_app. simpl.
      apply (scorePhaseObject_of_selection _ (iso (clock env n)) p).
    + intros q Hq Eq. rewrite assoc_set_other.
      * apply Hfresh; [now right | exact Eq].
      * intros Hkey. apply phaseKey_inj in Hkey. apply Hnot.
        rewrite <- Hkey. now apply in_map.
  - rewrite IH; [| exact Hrest |].
    + f_equal. unfold scoreSelection. now rewrite E.
    + intros q Hq Eq. apply Hfresh; [now right | exact Eq].
Qed.

(** X17: scores accumulate in [savePhaseData]: when the submitted phase
    numbers are pairwise different and none of the submitted phases that
    have a status is stored yet, the score computed for the merged phases
    is the clamped sum of what the stored phases scored and what the
    submitted phases contribute. *)
Theorem merged_score_accumulates (env : Env) (phaseData : list PhaseSelection)
  (acc : PhasesObj) (w : World) :
  NoDup (map phase phaseData) ->
  (forall p, In p phaseData -> truthy (status p) = true ->
             assoc (phaseKey (phase p)) acc = None) ->
  exists merged,
    eval (forEach (mergePhase env) phaseData acc) w = Returned merged
    /\ calculateScoreFromPhaseObjects (values merged)
       = clamp (fold_left scoreSelection phaseData
                  (fold_left scorePhaseObject (values acc) (TNum 0))).
Proof.
  intros Hnd Hfresh. exists (mergedPhases env (tick w) phaseData acc).
  unfold eval. rewrite forEach_mergePhase_run. split; [reflexivity |].
  unfold calculateScoreFromPhaseObjects. f_equal.
  now apply merged_score.
Qed.

Lemma merged_score_accumulates_witness :
  exists merged,
    eval (forEach (mergePhase offline) second_submission
            [("phase1", phase1_record)]) emptyWorld = Returned merged
    /\ calculateScoreFromPhaseObjects (values merged)
       = clamp (fold_left scoreSelection second_submission
                  (fold_left scorePhaseObject
                     (values [("phase1", phase1_record)]) (TNum 0))).
Proof.
  apply merged_score_accumulates.
  - simpl. repeat (constructor; [simpl; intuition discriminate |]).
    constructor.
  - intros p Hin Hp. simpl in Hin.
    repeat (destruct Hin as [<- | Hin]; [try discriminate Hp; reflexivity |]).
    destruct Hin.
Defined.

Example merged_score_is_36 :
  clamp (fold_left scoreSelection second_submission
           (fold_left scorePhaseObject (values [("phase1", phase1_record)])
              (TNum 0))) = Num 36.
Proof. reflexivity. Qed.

(* ===================================================================== *)
(** ** The aggregator on a healthy local backend *)
(* ===================================================================== *)

Lemma now_run (env : Env) (w : World) :
  now env w = (Returned (clock env (tick w)), later 1 w).
Proof. reflexivity. Qed.

Section LocalOnly.

Variable env : Env.
Hypothesis Hlocal : local_only env.

Lemma fetchAllData_local (w : World) :
  fetchAllData env w
  = (Returned (array_sort env (values (local w))),
     later 1 (called CallFetchAll w)).
Proof.
  destruct Hlocal as [Hdb Hl].
  rewrite fetchAllData_run. unfold fetched, after_fetch.
  rewrite Hdb. simpl. now rewrite Hl.
Qed.

Lemma getTodayData_local (d : string) (w : World) :
  getTodayData env d w
  = (Returned (todayIn d (array_sort env (values (local w)))),
     later 1 (called CallFetchAll w)).
Proof.
  unfold getTodayData, try_catch, bind. now rewrite fetchAllData_local.
Qed.

Lemma saveToLocalStorage_local (d wd : string) (s : num) (c : string)
  (p : option PhasesObj) (w : World) :
  saveToLocalStorage env d wd s c p w
  = (Returned true,
     mkWorld (remote w)
       (json_store
          (set d (mkDay None d wd s c (iso (clock env (S (tick w)))) p)
               (local w)))
       (3 + tick w) (heatmapData w) (calls w)).
Proof.
  destruct Hlocal as [_ Hl]. run_facade. rewrite !Hl. reflexivity.
Qed.

Lemma saveDailyData_local (d wd : string) (s : num) (c : string)
  (p : option PhasesObj) (w : World) :
  saveDailyData env d wd s c p w
  = (Returned true,
     mkWorld (remote w)
       (json_store
          (set d (mkDay None d wd s c (iso (clock env (S (tick w)))) p)
               (local w)))
       (3 + tick w) (heatmapData w) (CallSave d :: calls w)).
Proof.
  destruct (saveDailyData_routing env d wd s c p w) as [_ Hroute].
  unfold remote_write_ok in Hroute. rewrite (proj1 Hlocal) in Hroute.
  simpl in Hroute. rewrite Hroute, saveToLocalStorage_local. reflexivity.
Qed.

(** The phases stored for [d] before the call. *)
Lemma savePhaseData_local (d wd : string) (phaseData : list PhaseSelection)
  (w : World) :
  exists ts n,
    savePhaseData env d wd phaseData w
    = (Returned true,
       let merged :=
         mergedPhases env (S (tick w)) phaseData
           (spread (today_phases
                      (todayIn d (array_sort env (values (local w)))))) in
       let total := calculateScoreFromPhaseObjects (values merged) in
       mkWorld (remote w)
         (json_store
            (set d (mkDay None d wd total (getColorForScore total) ts
                          (Some merged))
                 (local w)))
         n (heatmapData w) (CallSave d :: CallFetchAll :: calls w)).
Proof.
  unfold savePhaseData, try_catch.
  erewrite bind_returned by apply getTodayData_local.
  erewrite bind_returned by apply forEach_mergePhase_run.
  erewrite bind_returned by apply now_run.
  rewrite saveDailyData_local.
  eexists. eexists. reflexivity.
Qed.

Lemma lockSavedPhases_local (d : string) (w : World) :
  lockSavedPhases env d w = (Returned tt, later 1 (called CallFetchAll w)).
Proof.
  unfold lockSavedPhases, try_catch.
  erewrite bind_returned by apply getTodayData_local. reflexivity.
Qed.

Lemma updateHeatmapColor_local (d wd : string) (s : num) (c : string)
  (w : World) :
  updateHeatmapColor env d wd s c w
  = (Returned tt,
     mkWorld (remote w)
       (json_store
          (set d (mkDay None d wd s c (iso (clock env (S (tick w)))) None)
               (local w)))
       (3 + tick w) (heatmapData w) (CallSave d :: calls w)).
Proof.
  unfold updateHeatmapColor, try_catch.
  erewrite bind_returned by apply saveDailyData_local. reflexivity.
Qed.

Lemma loadHeatmapData_local (w : World) :
  loadHeatmapData env w
  = (Returned tt,
     mkWorld (remote w) (local w) (1 + tick w)
       (array_sort env (values (local w))) (CallFetchAll :: calls w)).
Proof.
  unfold loadHeatmapData, try_catch.
  erewrite bind_returned by apply fetchAllData_local. reflexivity.
Qed.

(** The whole flow, as one equation on worlds. *)
Lemma handleGenerateClick_local (phaseData : list PhaseSelection) (w : World) :
  validateAllPhases phaseData = true ->
  exists first ts n c,
    date first = formatDate (clock env (tick w))
    /\ handleGenerateClick env phaseData w
       = (Returned (PhaseSaved (calculateProductivityScore phaseData)),
          let d := formatDate (clock env (tick w)) in
          let s := calculateProductivityScore phaseData in
          let stored :=
            json_store
              (set d (mkDay None d (getWeekday (clock env (tick w))) s
                            (getColorForScore s) ts None)
                   (json_store (set d first (local w)))) in
          mkWorld (remote w) stored n (array_sort env (values stored)) c).
Proof.
  intros Hv. rewrite handleGenerateClick_unfold, Hv.
  set (t := clock env (tick w)).
  destruct (savePhaseData_local (formatDate t) (getWeekday t) phaseData
              (later 1 w)) as (ts1 & n1 & Hsave).
  unfold try_catch, generateAt.
  erewrite bind_returned by exact Hsave. cbv beta iota zeta.
  erewrite bind_returned by apply lockSavedPhases_local.
  erewrite bind_returned by apply updateHeatmapColor_local.
  erewrite bind_returned by apply loadHeatmapData_local.
  do 4 eexists. split; [| reflexivity]. reflexivity.
Qed.

End LocalOnly.

(** X18: on a healthy local backend [savePhaseData] answers [true] and
    stores, under the date, a day whose phases are the merge of the
    phases stored before and the submitted ones, whose score is the score
    of those phases as it reads back from JSON, and whose colour is the
    colour of that score: the stored day is consistent whenever the score
    is a number. The remote store is not touched. *)
Theorem savePhaseData_stores_merged_day (env : Env) (d wd : string)
  (phaseData : list PhaseSelection) (w : World) :
  local_only env ->
  (forall l, Permutation (array_sort env l) l) ->
  well_keyed (local w) ->
  exists merged r,
    eval (savePhaseData env d wd phaseData) w = Returned true
    /\ eval (forEach (mergePhase env) phaseData
               match assoc d (local w) with
               | Some before => spread (phases before)
               | None => []
               end) (later 1 w) = Returned merged
    /\ assoc d (local (exec (savePhaseData env d wd phaseData) w)) = Some r
    /\ date r = d /\ weekday r = wd /\ phases r = Some merged
    /\ score r = json (calculateScoreFromPhaseObjects (values merged))
    /\ color r = getColorForScore (score r)
    /\ (calculateScoreFromPhaseObjects (values merged) <> NaN ->
        consistent r)
    /\ remote (exec (savePhaseData env d wd phaseData) w) = remote w.
Proof.
  intros Hlocal Hsort Hwk.
  destruct (savePhaseData_local env Hlocal d wd phaseData w)
    as (ts & n & Hrun).
  assert (spread (today_phases
                    (todayIn d (array_sort env (values (local w)))))
          = match assoc d (local w) with
            | Some before => spread (phases before)
            | None => []
            end) as Hprev.
  { unfold todayIn, values.
    rewrite (find_by_date snd (local w)); [| reflexivity | exact Hwk | apply Hsort].
    destruct (assoc d (local w)); reflexivity. }
  rewrite Hprev in Hrun. cbv zeta in Hrun.
  set (prev := match assoc d (local w) with
               | Some before => spread (phases before)
               | None => []
               end) in *.
  set (merged := mergedPhases env (S (tick w)) phaseData prev) in *.
  set (total := calculateScoreFromPhaseObjects (values merged)) in *.
  exists merged,
    (json_record
       (mkDay None d wd total (getColorForScore total) ts (Some merged))).
  unfold eval, exec. rewrite Hrun, forEach_mergePhase_run. simpl.
  rewrite assoc_json_store, assoc_set_same. simpl.
  assert (total <> NaN -> json total = total) as Hnum.
  { subst total. unfold calculateScoreFromPhaseObjects.
    destruct (fold_left scorePhaseObject (values merged) (TNum 0));
      simpl; [reflexivity | congruence]. }
  repeat (split; [reflexivity |]).
  split; [now rewrite getColorForScore_json |].
  split; [| reflexivity].
  intros Hn. split; simpl; [now apply Hnum |].
  now rewrite getColorForScore_json.
Qed.

Lemma savePhaseData_stores_merged_day_witness :
  exists merged r,
    eval (savePhaseData offline "2024-03-05" "Tuesday" second_submission)
         (mkWorld []
            [("2024-03-05",
              day (Num 20) "#E8F5E8" (Some [("phase1", phase1_record)]))]
            0 [] [])
    = Returned true
    /\ eval (forEach (mergePhase offline) second_submission
               match
                 assoc "2024-03-05"
                   (local
                      (mkWorld []
                         [("2024-03-05",
                           day (Num 20) "#E8F5E8"
                             (Some [("phase1", phase1_record)]))]
                         0 [] []))
               with
               | Some before => spread (phases before)
               | None => []
               end)
         (later 1
            (mkWorld []
               [("2024-03-05",
                 day (Num 20) "#E8F5E8" (Some [("phase1", phase1_record)]))]
               0 [] []))
       = Returned merged
    /\ assoc "2024-03-05"
         (local
            (exec
               (savePhaseData offline "2024-03-05" "Tuesday" second_submission)
               (mkWorld []
                  [("2024-03-05",
                    day (Num 20) "#E8F5E8"
                      (Some [("phase1", phase1_record)]))]
                  0 [] [])))
       = Some r
    /\ date r = "2024-03-05" /\ weekday r = "Tuesday"
    /\ phases r = Some merged
    /\ score r = json (calculateScoreFromPhaseObjects (values merged))
    /\ color r = getColorForScore (score r)
    /\ (calculateScoreFromPhaseObjects (values merged) <> NaN ->
        consistent r)
    /\ remote
         (exec (savePhaseData offline "2024-03-05" "Tuesday" second_submission)
            (mkWorld []
               [("2024-03-05",
                 day (Num 20) "#E8F5E8" (Some [("phase1", phase1_record)]))]
               0 [] []))
       = remote
           (mkWorld []
              [("2024-03-05",
                day (Num 20) "#E8F5E8" (Some [("phase1", phase1_record)]))]
              0 [] []).
Proof.
  apply savePhaseData_stores_merged_day.
  - split; reflexivity.
  - apply sort_desc_permutation.
  - split; simpl; [constructor; [intros [] | constructor] | repeat constructor].
Defined.

(** X19: on a healthy local backend an accepted submission always ends
    with the success message, and the day the flow leaves in the store is
    the one written last, by [updateHeatmapColor]: it carries the score
    and the colour of the phases submitted in this click and no phases
    field, whatever was stored or merged before. The in-memory snapshot
    is the sorted content of the store. *)
Theorem generate_flow_on_local_backend (env : Env)
  (phaseData : list PhaseSelection) (w : World) :
  local_only env ->
  validateAllPhases phaseData = true ->
  eval (handleGenerateClick env phaseData) w
  = Returned (PhaseSaved (calculateProductivityScore phaseData))
  /\ (exists ts,
        assoc (formatDate (clock env (tick w)))
          (local (exec (handleGenerateClick env phaseData) w))
        = Some (mkDay None (formatDate (clock env (tick w)))
                  (getWeekday (clock env (tick w)))
                  (json (calculateProductivityScore phaseData))
                  (getColorForScore (calculateProductivityScore phaseData))
                  ts None))
  /\ heatmapData (exec (handleGenerateClick env phaseData) w)
     = array_sort env
         (values (local (exec (handleGenerateClick env phaseData) w)))
  /\ remote (exec (handleGenerateClick env phaseData) w) = remote w.
Proof.
  intros Hlocal Hv.
  destruct (handleGenerateClick_local env Hlocal phaseData w Hv)
    as (first & ts & n & c & _ & Hrun).
  unfold eval, exec. rewrite Hrun. cbv zeta. simpl.
  split; [reflexivity |]. split; [| split; reflexivity].
  exists ts. rewrite assoc_json_store, assoc_set_same. reflexivity.
Qed.

Lemma generate_flow_on_local_backend_witness :
  eval (handleGenerateClick offline second_submission)
       (mkWorld []
          [("2024-03-05",
            day (Num 20) "#E8F5E8" (Some [("phase1", phase1_record)]))]
          0 [] [])
  = Returned (PhaseSaved (calculateProductivityScore second_submission))
  /\ (exists ts,
        assoc (formatDate (clock offline 0))
          (local
             (exec (handleGenerateClick offline second_submission)
                (mkWorld []
                   [("2024-03-05",
                     day (Num 20) "#E8F5E8"
                       (Some [("phase1", phase1_record)]))]
                   0 [] [])))
        = Some (mkDay None (formatDate (clock offline 0))
                  (getWeekday (clock offline 0))
                  (json (calculateProductivityScore second_submission))
                  (getColorForScore
                     (calculateProductivityScore second_submission))
                  ts None))
  /\ heatmapData
       (exec (handleGenerateClick offline second_submission)
          (mkWorld []
             [("2024-03-05",
               day (Num 20) "#E8F5E8" (Some [("phase1", phase1_record)]))]
             0 [] []))
     = array_sort offline
         (values
            (local
               (exec (handleGenerateClick offline second_submission)
                  (mkWorld []
                     [("2024-03-05",
                       day (Num 20) "#E8F5E8"
                         (Some [("phase1", phase1_record)]))]
                     0 [] []))))
  /\ remote
       (exec (handleGenerateClick offline second_submission)
          (mkWorld []
             [("2024-03-05",
               day (Num 20) "#E8F5E8" (Some [("phase1", phase1_record)]))]
             0 [] []))
     = [].
Proof.
  apply (generate_flow_on_local_backend offline second_submission
           (mkWorld []
              [("2024-03-05",
                day (Num 20) "#E8F5E8" (Some [("phase1", phase1_record)]))]
              0 [] [])).
  - split; reflexivity.
  - reflexivity.
Defined.

(** X20: on a healthy local backend, after an accepted submission the
    grid element of the day shows the colour of the score of the phases
    submitted in this click, carries that score (as read back from JSON)
    and the weekday, and is marked as having data. The store must be well
    keyed and [sort] must return a permutation. *)
Theorem heatmap_shows_submission (env : Env)
  (phaseData : list PhaseSelection) (w : World) :
  local_only env ->
  validateAllPhases phaseData = true ->
  (forall l, Permutation (array_sort env l) l) ->
  well_keyed (local w) ->
  updateHeatmapDisplay
    (heatmapData (exec (handleGenerateClick env phaseData) w))
    [blankCell (formatDate (clock env (tick w)))]
  = [mkCell (formatDate (clock env (tick w)))
       (getColorForScore (calculateProductivityScore phaseData)) true
       (Some (json (calculateProductivityScore phaseData)))
       (Some (getWeekday (clock env (tick w))))].
Proof.
  intros Hlocal Hv Hsort Hwk.
  destruct (handleGenerateClick_local env Hlocal phaseData w Hv)
    as (first & ts & n & c & Hfirst & Hrun).
  unfold exec. rewrite Hrun. cbv zeta. simpl.
  unfold updateCell, values. simpl.
  rewrite (find_by_date snd
             (json_store
                (set (formatDate (clock env (tick w)))
                   (mkDay None (formatDate (clock env (tick w)))
                      (getWeekday (clock env (tick w)))
                      (calculateProductivityScore phaseData)
                      (getColorForScore (calculateProductivityScore phaseData))
                      ts None)
                   (json_store
                      (set (formatDate (clock env (tick w))) first
                         (local w)))))).
  - rewrite assoc_json_store, assoc_set_same. reflexivity.
  - reflexivity.
  - apply well_keyed_json_store, well_keyed_set; [reflexivity |].
    apply well_keyed_json_store, well_keyed_set; [exact Hfirst | exact Hwk].
  - apply Hsort.
Qed.

Lemma heatmap_shows_submission_witness :
  updateHeatmapDisplay
    (heatmapData
       (exec (handleGenerateClick offline second_submission)
          (mkWorld []
             [("2024-03-05",
               day (Num 20) "#E8F5E8" (Some [("phase1", phase1_record)]))]
             0 [] [])))
    [blankCell (formatDate (clock offline 0))]
  = [mkCell (formatDate (clock offline 0))
       (getColorForScore (calculateProductivityScore second_submission)) true
       (Some (json (calculateProductivityScore second_submission)))
       (Some (getWeekday (clock offline 0)))].
Proof.
  apply (heatmap_shows_submission offline second_submission
           (mkWorld []
              [("2024-03-05",
                day (Num 20) "#E8F5E8" (Some [("phase1", phase1_record)]))]
              0 [] [])).
  - split; reflexivity.
  - reflexivity.
  - apply sort_desc_permutation.
  - split; simpl; [constructor; [intros [] | constructor] | repeat constructor].
Defined.

(* ===================================================================== *)
(** ** Connection status *)
(* ===================================================================== *)

(** X21: the two status functions disagree after a failed
    initialisation: with any key other than the demo key,
    [isFirebaseConfigured] still answers [true] (the handle is undefined,
    not null), while [getConnectionStatus] reports the local store; the
    "not configured" message can only appear with a handle and the demo
    key. *)
Theorem status_after_failed_initialisation (env : Env) (apiKey : string) :
  apiKey <> "demo-api-key" ->
  (db env = false ->
   isFirebaseConfigured env apiKey = true
   /\ getConnectionStatus env apiKey
      = "Using localStorage (Firebase not available)")
  /\ (db env = true -> getConnectionStatus env apiKey = "Connected to Firebase")
  /\ getConnectionStatus env apiKey
     <> "Using localStorage (Firebase not configured)".
Proof.
  intros Hkey. apply String.eqb_neq in Hkey.
  unfold getConnectionStatus, isFirebaseConfigured, db_not_null.
  rewrite Hkey. destruct (db env); simpl.
  - repeat split; try discriminate; reflexivity.
  - repeat split; try discriminate; reflexivity.
Qed.

Lemma status_after_failed_initialisation_witness :
  isFirebaseConfigured offline "AIza-example-key" = true
  /\ getConnectionStatus offline "AIza-example-key"
     = "Using localStorage (Firebase not available)".
Proof.
  apply (status_after_failed_initialisation offline "AIza-example-key").
  - discriminate.
  - reflexivity.
Defined.

(* ===================================================================== *)
(** ** Service worker *)
(* ===================================================================== *)

Module ServiceWorkerFacts.

Import ServiceWorker.

Lemma prefix_append (p rest : string) : String.prefix p (p ++ rest) = true.
Proof.
  induction p as [| c p IH]; simpl.
  - now destruct rest.
  - destruct (ascii_dec c c); [exact IH | contradiction].
Qed.

Lemma prefix_split (p s : string) :
  String.prefix p s = true -> exists rest, s = p ++ rest.
Proof.
  revert s. induction p as [| c p IH]; intros s H.
  - exists s. reflexivity.
  - destruct s as [| c' s]; simpl in H; [discriminate |].
    destruct (ascii_dec c c') as [<- | _]; [| discriminate].
    destruct (IH s H) as [rest ->]. exists rest. reflexivity.
Qed.

Lemma includes_unfold (s sub : string) :
  includes s sub
  = String.prefix sub s
    || match s with
       | EmptyString => false
       | String _ rest => includes rest sub
       end.
Proof. destruct s; reflexivity. Qed.

Lemma includes_middle (before sub rest : string) :
  includes (before ++ sub ++ rest) sub = true.
Proof.
  induction before as [| c before IH].
  - cbn [append]. now rewrite includes_unfold, prefix_append.
  - cbn [append]. rewrite includes_unfold, IH. apply orb_true_r.
Qed.

Lemma absolute_url (url : string) :
  startsWith url "http://" = true \/ startsWith url "https://" = true ->
  startsWith url "http" = true /\ includes url "/" = true.
Proof.
  unfold startsWith. intros [H | H]; apply prefix_split in H;
    destruct H as [rest ->].
  - split; [reflexivity |].
    apply (includes_middle "http:" "/" ("/" ++ rest)).
  - split; [reflexivity |].
    apply (includes_middle "https:" "/" ("/" ++ rest)).
Qed.

(** X22: the [fetch] listener answers every request for an [http://] or
    [https://] URL with the cache-first strategy: the first entry of
    [STATIC_FILES] is ["/"], which every such URL includes, so
    [isStaticFile] holds and the network-first branches for Firebase and
    API requests are never reached. *)
Theorem every_request_is_cache_first (url : string) :
  startsWith url "http://" = true \/ startsWith url "https://" = true ->
  isStaticFile url = true /\ onFetch url = Some CacheFirst.
Proof.
  intros H. destruct (absolute_url url H) as [Hhttp Hslash].
  assert (isStaticFile url = true) as Hstatic.
  { unfold isStaticFile, STATIC_FILES. cbn [existsb]. now rewrite Hslash. }
  split; [exact Hstatic |].
  unfold onFetch. now rewrite Hhttp, Hstatic.
Qed.

Lemma every_request_is_cache_first_witness :
  isStaticFile
    "https://firestore.googleapis.com/v1/projects/p/databases/(default)/documents"
  = true
  /\ onFetch
       "https://firestore.googleapis.com/v1/projects/p/databases/(default)/documents"
     = Some CacheFirst.
Proof.
  apply every_request_is_cache_first. right. reflexivity.
Defined.

Lemma cache_delete_absent {R : Type} (key : string) (c : Cache R) :
  ~ In key (map fst c) -> cache_delete key c = c.
Proof.
  induction c as [| e c IH]; intros H; simpl; [reflexivity |].
  destruct (String.eqb_spec (fst e) key) as [E | _]; simpl.
  - exfalso. apply H. now left.
  - f_equal. apply IH. intros Hin. apply H. now right.
Qed.

Lemma delete_oldest {R : Type} (k : nat) (c : Cache R) :
  NoDup (map fst c) ->
  fold_left (fun c' key => cache_delete key c') (firstn k (map fst c)) c
  = skipn k c.
Proof.
  revert c. induction k as [| k IH]; intros c Hnd; [reflexivity |].
  destruct c as [| e c]; [reflexivity |].
  simpl in Hnd. inversion Hnd as [| ? ? Hnot Hrest]; subst.
  cbn [map firstn fold_left skipn].
  assert (cache_delete (fst e) (e :: c) = c) as ->.
  { unfold cache_delete. cbn [filter].
    rewrite String.eqb_refl. cbn [negb].
    now apply cache_delete_absent. }
  now apply IH.
Qed.

(** X23: [limitCacheSize] on a cache whose keys are pairwise different
    removes the oldest entries and nothing else: what is left are the
    newest entries in their order, at most [maxSize] of them, and a cache
    within the limit is left as it is. *)
Theorem limitCacheSize_keeps_newest {R : Type} (c : Cache R) (maxSize : nat) :
  NoDup (map fst c) ->
  limitCacheSize c maxSize = skipn (List.length c - maxSize) c
  /\ List.length (limitCacheSize c maxSize) = Nat.min (List.length c) maxSize
  /\ ((List.length c <= maxSize)%nat -> limitCacheSize c maxSize = c).
Proof.
  intros Hnd.
  assert (limitCacheSize c maxSize = skipn (List.length c - maxSize) c) as E.
  { unfold limitCacheSize. rewrite length_map.
    destruct (Nat.ltb_spec maxSize (List.length c)) as [Hlt | Hge].
    - now apply delete_oldest.
    - replace (List.length c - maxSize)%nat with 0%nat by lia. reflexivity. }
  split; [exact E |]. split.
  - rewrite E, length_skipn. lia.
  - intros Hle. rewrite E.
    replace (List.length c - maxSize)%nat with 0%nat by lia. reflexivity.
Qed.

Lemma limitCacheSize_keeps_newest_witness :
  limitCacheSize [("/a", 1%nat); ("/b", 2%nat); ("/c", 3%nat)] 2
  = skipn (List.length [("/a", 1%nat); ("/b", 2%nat); ("/c", 3%nat)] - 2)
      [("/a", 1%nat); ("/b", 2%nat); ("/c", 3%nat)]
  /\ List.length
       (limitCacheSize [("/a", 1%nat); ("/b", 2%nat); ("/c", 3%nat)] 2)
     = Nat.min (List.length [("/a", 1%nat); ("/b", 2%nat); ("/c", 3%nat)]) 2
  /\ ((List.length [("/a", 1%nat); ("/b", 2%nat); ("/c", 3%nat)] <= 2)%nat ->
      limitCacheSize [("/a", 1%nat); ("/b", 2%nat); ("/c", 3%nat)] 2
      = [("/a", 1%nat); ("/b", 2%nat); ("/c", 3%nat)]).
Proof.
  apply limitCacheSize_keeps_newest. simpl.
  repeat (constructor; [simpl; intuition discriminate |]). constructor.
Defined.

Example limitCacheSize_drops_oldest :
  limitCacheSize [("/a", 1%nat); ("/b", 2%nat); ("/c", 3%nat)] 2
  = [("/b", 2%nat); ("/c", 3%nat)].
Proof. reflexivity. Qed.

End ServiceWorkerFacts.
